(** * custom-error-pages: the error handler of images/custom-error-pages/main.go

    A shallow embedding of [modifyOutput] and of the closure returned by
    [errorHandler], with the response-selection properties of the
    specification stated over it.

    Go maps ([http.Header], the environment, the tree of error files, the
    route configuration) are finite maps from strings; indexing a missing key
    gives the empty string, as [Header.Get], [os.Getenv] and a Go map index
    do.  The calls the handler makes on its [http.ResponseWriter] are
    recorded in the result: the header map as the handler leaves it, the
    argument it passed to [WriteHeader] together with the bytes it copied,
    and the metric samples it recorded.  The writer is the one of
    [net/http]: [WriteHeader] panics on a code that does not have three
    digits, which ends the handler, and [http.NotFound] puts its own
    Content-Type in the header map.  Log lines are not part of the model. *)

From Stdlib Require Import ZArith Ascii String List Lia Permutation.
From stdpp Require Import base option strings gmap.

Local Open Scope string_scope.
Local Open Scope Z_scope.

(** ** The Go standard library functions the handler calls *)

Module GoStrings.

(** [strings.HasPrefix(s, prefix)]. *)
Fixpoint HasPrefix (s pre : string) {struct pre} : bool :=
  match pre, s with
  | EmptyString, _ => true
  | String _ _, EmptyString => false
  | String a pre', String b s' => if Ascii.eqb a b then HasPrefix s' pre' else false
  end.

(** [strings.Contains(s, substr)]: [substr] starts at some offset of [s]. *)
Fixpoint Contains (s substr : string) : bool :=
  HasPrefix s substr ||
  match s with
  | EmptyString => false
  | String _ s' => Contains s' substr
  end.

End GoStrings.

Module Strconv.

(** Bounds of Go's [int] on the build target (GOARCH=amd64). *)
Definition minInt : Z := - 2 ^ 63.
Definition maxInt : Z := 2 ^ 63 - 1.

Definition digitChar (d : Z) : ascii := ascii_of_N (48 + Z.to_N d).

(** The digit loop of [strconv.Itoa]: the least significant digit is put
    in front of [acc] until the quotient is a single digit.  Twenty rounds
    are enough for 64 bits. *)
Fixpoint formatBits (fuel : nat) (u : Z) (acc : string) : string :=
  match fuel with
  | O => acc
  | S fuel' =>
      let acc' := String (digitChar (u mod 10)) acc in
      if u <? 10 then acc' else formatBits fuel' (u / 10) acc'
  end.

(** [strconv.Itoa(i)]. *)
Definition Itoa (i : Z) : string :=
  if i <? 0 then String "-" (formatBits 20 (- i) "") else formatBits 20 i "".

Definition digitVal (c : ascii) : option Z :=
  let n := Z.of_N (N_of_ascii c) in
  if (48 <=? n) && (n <=? 57) then Some (n - 48) else None.

(** The digits of [s] read from the left, starting from [acc]; [None] on
    a byte that is not a decimal digit. *)
Fixpoint parseDigits (s : string) (acc : Z) : option Z :=
  match s with
  | EmptyString => Some acc
  | String c s' =>
      match digitVal c with
      | Some d => parseDigits s' (acc * 10 + d)
      | None => None
      end
  end.

(** [strconv.Atoi(s)]: an optional sign, at least one decimal digit and
    nothing else; [None] stands for both of its errors (syntax, and a
    value out of the range of [int]). *)
Definition Atoi (s : string) : option Z :=
  let '(neg, ds) :=
    match s with
    | String "-" r => (true, r)
    | String "+" r => (false, r)
    | _ => (false, s)
    end in
  match ds with
  | EmptyString => None
  | _ =>
      match parseDigits ds 0 with
      | Some u =>
          let n := if neg then - u else u in
          if (minInt <=? n) && (n <=? maxInt) then Some n else None
      | None => None
      end
  end.

End Strconv.

Import GoStrings Strconv.

(** ** The world the handler runs in *)

(** Index of a Go [map[string]string] ([Header.Get], [os.Getenv],
    [config["env"]]): the empty string when the key is missing. *)
Definition mget (m : gmap string string) (k : string) : string :=
  default "" (m !! k).

Definition nonEmpty (s : string) : bool := negb (String.eqb s "").

(** What the process can observe outside the request: its environment, the
    files [os.Open] finds (path to contents), the answer of
    [mime.ExtensionsByType] ([None] is its error, a list its extensions) and
    the time that passes between the two readings of the clock, in
    nanoseconds. *)
Record World := {
  environ : gmap string string;
  files : gmap string string;
  ExtensionsByType : string -> option (list string);
  elapsed : Z
}.

Definition Getenv (w : World) (name : string) : string := mget (environ w) name.
Definition Open (w : World) (name : string) : option string := files w !! name.

(** The fields of [*http.Request] the handler reads.  [Header] is keyed by
    the names the handler passes to [Header.Get]; [net/http] brings the
    names of a request and the names given to [Get] and [Set] to one
    canonical form, which the model leaves out. *)
Record Request := {
  Header : gmap string string;
  ProtoMajor : Z;
  ProtoMinor : Z
}.

Definition FormatHeader := "X-Format".
Definition CodeHeader := "X-Code".
Definition ContentType := "Content-Type".
Definition OriginalURI := "X-Original-URI".
Definition Namespace := "X-Namespace".
Definition IngressName := "X-Ingress-Name".
Definition ServiceName := "X-Service-Name".
Definition ServicePort := "X-Service-Port".
Definition RequestId := "X-Request-ID".
Definition StatusOK : Z := 200.

(** The check [WriteHeader] of [net/http] makes on its argument: a code
    below 100 or above 999 makes it panic. *)
Definition validStatus (code : Z) : bool := (100 <=? code) && (code <=? 999).

(** What the handler did with its response writer. *)
Inductive Emission :=
| Wrote (code : Z) (body : string)  (* w.WriteHeader(code) returned; io.Copy(w, body) *)
| InvalidCode (code : Z)            (* w.WriteHeader(code) panicked: nothing is sent *)
| NotFound                          (* http.NotFound(w, r): net/http writes the reply *)
| IndexPanic.                       (* scode[0] on an empty scode *)

Inductive Sample :=
| CountInc (proto : string)                    (* requestCount.WithLabelValues(proto).Inc() *)
| DurationObserve (proto : string) (ns : Z).   (* requestDuration.WithLabelValues(proto).Observe(d),
                                                  d kept in nanoseconds *)

Record Outcome := {
  headers : gmap string string;
  emitted : Emission;
  samples : list Sample
}.

(** ** modifyOutput *)

(** [for header, value := range headers { w.Header().Set(header, value) }] *)
Definition setHeaders (hs : list (string * string)) (h : gmap string string)
  : gmap string string :=
  fold_left (fun acc kv => <[kv.1 := kv.2]> acc) hs h.

(** The body of the loop over [endpoints], on the three variables the loop
    assigns. *)
Definition rangeEndpoint (w : World) (path uri : string)
    (st : string * option string * Z) (kv : string * gmap string string)
  : string * option string * Z :=
  let '(filename, content, customCode) := st in
  let '(endpoint, config) := kv in
  if nonEmpty (Getenv w (mget config "env")) then
    (filename, Some (Getenv w (mget config "env")), customCode)
  else if Contains uri endpoint then
    (path +:+ "/" +:+ mget config "file", content, StatusOK)
  else st.

(** [modifyOutput]: [headers] and [endpoints] are Go maps, given here as the
    sequence of entries in the order [range] visits them (an order the Go
    runtime chooses anew for every loop).  [customCode] starts as the zero
    value of [int]; [service] is only logged and [returnCode] is not used.
    The result carries the response headers after the first loop. *)
Definition modifyOutput (w : World) (hdrs : gmap string string)
    (ext path service uri : string)
    (headers : list (string * string))
    (endpoints : list (string * gmap string string))
    (ingressCode returnCode : Z)
  : gmap string string * (string * option string * Z) :=
  let hdrs := setHeaders headers hdrs in
  let filename := path +:+ "/" +:+ Itoa ingressCode +:+ ext in
  (hdrs, fold_left (rangeEndpoint w path uri) endpoints (filename, None, 0)).

(** ** errorHandler *)

Definition refreshHeaders (r : Request) : list (string * string) :=
  [ ("Content-Type", "application/vnd.api+json; charset=utf-8");
    ("Access-Control-Allow-Origin", mget (Header r) "Origin");
    ("Access-Control-Allow-Credentials", "true") ].

(** The map literal [refreshEndpoints], in the order it is written. *)
Definition freshaRoute : string * gmap string string :=
  ("/version-checks/fresha",
   {[ "file" := "refresh-fresha.json"; "env" := "REFRESH_FRESHA_MAINTENANCE" ]}).
Definition shedulRoute : string * gmap string string :=
  ("/version-checks/shedul",
   {[ "file" := "refresh-shedul.json"; "env" := "REFRESH_SHEDUL_MAINTENANCE" ]}).
Definition refreshEndpoints : list (string * gmap string string) :=
  [ freshaRoute; shedulRoute ].

(** Lines 129-139: with DEBUG set, the request headers are echoed. *)
Definition debugHeaders (w : World) (r : Request) (h : gmap string string)
  : gmap string string :=
  if nonEmpty (Getenv w "DEBUG") then
    setHeaders
      (map (fun k => (k, mget (Header r) k))
         [FormatHeader; CodeHeader; ContentType; OriginalURI; Namespace;
          IngressName; ServiceName; ServicePort; RequestId]) h
  else h.

(** Lines 127 and 141-155: the format and the extension before the leading
    separator is added. *)
Definition resolveFormat (w : World) (r : Request) : string * string :=
  let ext := "html" in
  let format := mget (Header r) FormatHeader in
  let format := if String.eqb format "" then "text/html" else format in
  match ExtensionsByType w format with
  | None => ("text/html", ext)
  | Some [] => (format, ext)
  | Some (e :: _) => (format, e)
  end.

(** Lines 158-163. *)
Definition resolveCode (r : Request) : Z :=
  match Atoi (mget (Header r) CodeHeader) with
  | Some code => code
  | None => 404
  end.

(** Lines 165-167. *)
Definition normalizeExt (ext : string) : string :=
  if negb (HasPrefix ext ".") then "." +:+ ext else ext.

(** Lines 169-175: the file name, the literal content and the status in
    effect before anything is opened. *)
Definition resolveOutput (w : World) (path : string)
    (visit : list (string * gmap string string)) (r : Request)
    (hdrs : gmap string string) (ext : string) (code : Z)
  : gmap string string * (string * option string * Z) :=
  let uri := mget (Header r) OriginalURI in
  let serviceName := mget (Header r) ServiceName in
  if String.eqb serviceName "refresh" then
    modifyOutput w hdrs ext path serviceName uri (refreshHeaders r) visit code 200
  else
    (hdrs, (path +:+ "/" +:+ Itoa code +:+ ext, None, code)).

(** Line 184: [fmt.Sprintf("%v/%cxx%v", path, scode[0], ext)]. *)
Definition fallbackName (path : string) (code : Z) (ext : string) : option string :=
  match Itoa code with
  | String c _ => Some (path +:+ "/" +:+ String c "xx" +:+ ext)
  | EmptyString => None
  end.

(** Lines 203-209. *)
Definition recordMetrics (w : World) (r : Request) : list Sample :=
  let proto := Itoa (ProtoMajor r) +:+ "." +:+ Itoa (ProtoMinor r) in
  [CountInc proto; DurationObserve proto (elapsed w)].

(** [w.WriteHeader(code); io.Copy(w, body)] and what the handler does next,
    [after]: when the writer refuses the code the panic ends the handler,
    so nothing is copied and nothing that follows is run. *)
Definition writeResponse (hdrs : gmap string string) (code : Z) (body : string)
    (after : list Sample) : Outcome :=
  if validStatus code then
    {| headers := hdrs; emitted := Wrote code body; samples := after |}
  else
    {| headers := hdrs; emitted := InvalidCode code; samples := [] |}.

(** [http.NotFound(w, r)]: [http.Error] sets its own Content-Type and
    X-Content-Type-Options before it writes the 404 reply. *)
Definition notFoundHeaders (hdrs : gmap string string) : gmap string string :=
  <["X-Content-Type-Options" := "nosniff"]>
    (<[ContentType := "text/plain; charset=utf-8"]> hdrs).

(** The closure returned by [errorHandler(path)], run on request [r] with
    [range refreshEndpoints] visiting the routes in the order [visit]. *)
Definition errorHandler (path : string)
    (visit : list (string * gmap string string)) (w : World) (r : Request)
  : Outcome :=
  let hdrs := debugHeaders w r ∅ in
  let '(format, ext) := resolveFormat w r in
  let hdrs := <[ContentType := format]> hdrs in
  let code := resolveCode r in
  let ext := normalizeExt ext in
  let '(hdrs, (filename, content, customCode)) :=
    resolveOutput w path visit r hdrs ext code in
  match content with
  | Some v => writeResponse hdrs customCode v (recordMetrics w r)
  | None =>
      match Open w filename with
      | None =>
          match fallbackName path code ext with
          | None => {| headers := hdrs; emitted := IndexPanic; samples := [] |}
          | Some fallback =>
              match Open w fallback with
              | None =>
                  {| headers := notFoundHeaders hdrs; emitted := NotFound;
                     samples := [] |}
              | Some f => writeResponse hdrs code f []
              end
          end
      | Some f => writeResponse hdrs customCode f (recordMetrics w r)
      end
  end.

(** ** Views of the handler's intermediate values *)

(** The extension used for file names, after line 167. *)
Definition classifiedExt (w : World) (r : Request) : string :=
  normalizeExt (resolveFormat w r).2.

(** The format string of line 156. *)
Definition classifiedFormat (w : World) (r : Request) : string :=
  (resolveFormat w r).1.

(** The value of [X-Format], or the default of line 143. *)
Definition rawFormat (r : Request) : string :=
  if String.eqb (mget (Header r) FormatHeader) "" then "text/html"
  else mget (Header r) FormatHeader.

(** The response headers after line 156. *)
Definition classifiedHeaders (w : World) (r : Request) : gmap string string :=
  <[ContentType := classifiedFormat w r]> (debugHeaders w r ∅).

(** [filename], [content] and [customCode] at line 176. *)
Definition selection (path : string) (visit : list (string * gmap string string))
    (w : World) (r : Request) : string * option string * Z :=
  (resolveOutput w path visit r (classifiedHeaders w r) (classifiedExt w r)
     (resolveCode r)).2.

Definition selFilename path visit w r : string := (selection path visit w r).1.1.
Definition selContent path visit w r : option string := (selection path visit w r).1.2.
Definition selCode path visit w r : Z := (selection path visit w r).2.

(** ** Sample inputs *)

(** A media type table as Go's [mime] package has it built in
    ([text/html] is registered for [.htm] and [.html], and the extensions
    come back sorted); a string that is no media type is an error. *)
Definition goMime (t : string) : option (list string) :=
  if String.eqb t "text/html" then Some [".htm"; ".html"]
  else if String.eqb t "application/json" then Some [".json"]
  else if String.eqb t "text html" then None
  else Some [].

(** A table that lists [.html] first. *)
Definition htmlMime (t : string) : option (list string) :=
  if String.eqb t "text/html" then Some [".html"; ".htm"] else goMime t.

Definition wwwFiles : gmap string string :=
  {[ "/www/404.html" := "<h1>404</h1>";
     "/www/404.json" := "{ 'message': 'not found' }";
     "/www/503.json" := "{ 'message': 'unavailable' }";
     "/www/5xx.html" := "<h1>5xx</h1>";
     "/www/5xx.json" := "{ 'message': '5xx' }";
     "/www/refresh-fresha.json" := "{ 'fresha': true }" ]}.

Definition mkWorld (e : gmap string string) (m : string -> option (list string)) : World :=
  {| environ := e; files := wwwFiles; ExtensionsByType := m; elapsed := 1500 |}.

Definition mkRequest (h : gmap string string) : Request :=
  {| Header := h; ProtoMajor := 1; ProtoMinor := 1 |}.

Definition envNone : gmap string string := ∅.
Definition envFresha : gmap string string :=
  {[ "REFRESH_FRESHA_MAINTENANCE" := "fresha is down" ]}.
Definition envBoth : gmap string string :=
  {[ "REFRESH_FRESHA_MAINTENANCE" := "fresha is down";
     "REFRESH_SHEDUL_MAINTENANCE" := "shedul is down" ]}.

(** ** main *)

Definition ErrFilesPathVar := "ERROR_FILES_PATH".

(** Lines 67-70 of [main]: the directory of the error files, read from the
    environment the process starts in. *)
Definition errFilesPath (start : World) : string :=
  if nonEmpty (Getenv start ErrFilesPathVar) then Getenv start ErrFilesPathVar
  else "/www".

(** Line 72: the handler [main] registers for "/", built in the world
    [start] and run later, on each request, in the world of that moment. *)
Definition mainHandler (start : World)
    (visit : list (string * gmap string string)) (w : World) (r : Request)
  : Outcome :=
  errorHandler (errFilesPath start) visit w r.

(** ** Worlds that differ in one component *)

Definition withFiles (w : World) (fs : gmap string string) : World :=
  {| environ := environ w; files := fs;
     ExtensionsByType := ExtensionsByType w; elapsed := elapsed w |}.

Definition withEnviron (w : World) (e : gmap string string) : World :=
  {| environ := e; files := files w;
     ExtensionsByType := ExtensionsByType w; elapsed := elapsed w |}.

(** Every byte of [s] is a decimal digit. *)
Fixpoint allDigits (s : string) : bool :=
  match s with
  | EmptyString => true
  | String c s' => match digitVal c with Some _ => allDigits s' | None => false end
  end.

Example Itoa_503 : Itoa 503 = "503". Proof. reflexivity. Qed.
Example Itoa_neg : Itoa (-40) = "-40". Proof. reflexivity. Qed.
Example Itoa_max : Itoa maxInt = "9223372036854775807". Proof. reflexivity. Qed.
Example Itoa_min : Itoa minInt = "-9223372036854775808". Proof. reflexivity. Qed.
Example Atoi_503 : Atoi "503" = Some 503. Proof. reflexivity. Qed.
Example Atoi_plus : Atoi "+7" = Some 7. Proof. reflexivity. Qed.
Example Atoi_min : Atoi "-9223372036854775808" = Some minInt. Proof. reflexivity. Qed.
Example Atoi_big : Atoi "9223372036854775808" = None. Proof. reflexivity. Qed.
Example Atoi_word : Atoi "abc" = None. Proof. reflexivity. Qed.
Example Atoi_sign : Atoi "-" = None. Proof. reflexivity. Qed.
Example Contains_mid : Contains "/a/version-checks/fresha?x" "/version-checks/fresha" = true.
Proof. reflexivity. Qed.
Example Contains_no : Contains "/version-checks/fresh" "/version-checks/fresha" = false.
Proof. reflexivity. Qed.

(** ** Facts about the library functions *)

Lemma HasPrefix_dot (s : string) : HasPrefix ("." +:+ s) "." = true.
Proof. reflexivity. Qed.

Lemma nonEmpty_true (s : string) : nonEmpty s = true <-> s <> "".
Proof.
  unfold nonEmpty. destruct (String.eqb_spec s ""); simpl; split; congruence.
Qed.

Lemma nonEmpty_false (s : string) : nonEmpty s = false <-> s = "".
Proof.
  unfold nonEmpty. destruct (String.eqb_spec s ""); simpl; split; congruence.
Qed.

Lemma formatBits_acc (fuel : nat) :
  forall u d acc, exists c rest, formatBits fuel u (String d acc) = String c rest.
Proof.
  induction fuel as [|fuel IH]; intros u d acc; simpl.
  - eauto.
  - destruct (u <? 10); eauto.
Qed.

Lemma formatBits_nonempty (fuel : nat) (u : Z) (acc : string) :
  exists c rest, formatBits (S fuel) u acc = String c rest.
Proof.
  simpl. destruct (u <? 10); [eauto | apply formatBits_acc].
Qed.

Lemma Itoa_nonempty (i : Z) : exists c rest, Itoa i = String c rest.
Proof.
  unfold Itoa. destruct (i <? 0); [eauto | apply formatBits_nonempty].
Qed.

Lemma Atoi_empty : Atoi "" = None.
Proof. reflexivity. Qed.

Lemma Atoi_range (s : string) (n : Z) : Atoi s = Some n -> minInt <= n <= maxInt.
Proof.
  unfold Atoi.
  destruct (match s with
            | String "-" r => (true, r)
            | String "+" r => (false, r)
            | _ => (false, s)
            end) as [neg ds].
  destruct ds; [discriminate|].
  destruct (parseDigits _ 0) as [u|]; [|discriminate].
  destruct ((minInt <=? (if neg then - u else u)) &&
            ((if neg then - u else u) <=? maxInt)) eqn:E; [|discriminate].
  apply andb_prop in E as [H1 H2].
  intros [= <-]. lia.
Qed.

Lemma append_cons (c : ascii) (s t : string) :
  String c s +:+ t = String c (s +:+ t).
Proof. reflexivity. Qed.

Lemma append_empty_r (s : string) : s +:+ "" = s.
Proof.
  induction s as [|c s IH]; [reflexivity|]. now rewrite append_cons, IH.
Qed.

Lemma append_snoc (s : string) (c : ascii) (t : string) :
  s +:+ String c t = (s +:+ String c "") +:+ t.
Proof.
  induction s as [|a s IH]; [reflexivity|]. now rewrite !append_cons, IH.
Qed.

Lemma digitVal_digitChar (d : Z) : 0 <= d < 10 -> digitVal (digitChar d) = Some d.
Proof.
  intros H.
  assert (Hd : d = 0 \/ d = 1 \/ d = 2 \/ d = 3 \/ d = 4 \/ d = 5 \/ d = 6 \/
               d = 7 \/ d = 8 \/ d = 9) by lia.
  repeat (destruct Hd as [-> | Hd]; [reflexivity|]). now subst.
Qed.

Lemma parseDigits_app (s1 s2 : string) :
  forall a, parseDigits (s1 +:+ s2) a =
            match parseDigits s1 a with
            | Some b => parseDigits s2 b
            | None => None
            end.
Proof.
  induction s1 as [|c s1 IH]; intros a; [reflexivity|].
  rewrite append_cons. simpl. destruct (digitVal c); [apply IH | reflexivity].
Qed.

(** The digit loop writes [u] in front of [acc], and reading the digits back
    gives [u]. *)
Lemma formatBits_parse (fuel : nat) :
  forall u acc, 0 <= u < 10 ^ Z.of_nat fuel ->
    exists ds, formatBits fuel u acc = ds +:+ acc /\ parseDigits ds 0 = Some u.
Proof.
  induction fuel as [|fuel IH]; intros u acc Hu.
  - exists "". simpl in *. split; [reflexivity | f_equal; lia].
  - simpl formatBits. destruct (Z.ltb_spec u 10) as [Hlt | Hge].
    + exists (String (digitChar (u mod 10)) ""). split; [reflexivity|].
      simpl. rewrite digitVal_digitChar by (apply Z.mod_pos_bound; lia).
      f_equal. rewrite Z.mod_small; lia.
    + destruct (IH (u / 10) (String (digitChar (u mod 10)) acc)) as (ds & Hds & Hp).
      { rewrite Nat2Z.inj_succ, Z.pow_succ_r in Hu by lia.
        split; [apply Z.div_pos; lia | apply Z.div_lt_upper_bound; lia]. }
      exists (ds +:+ String (digitChar (u mod 10)) ""). split.
      * rewrite Hds. apply append_snoc.
      * rewrite parseDigits_app, Hp. simpl.
        rewrite digitVal_digitChar by (apply Z.mod_pos_bound; lia).
        f_equal. pose proof (Z.div_mod u 10). lia.
Qed.

Lemma Atoi_unsigned (c : ascii) (rest : string) (d : Z) :
  digitVal c = Some d ->
  Atoi (String c rest) =
  match parseDigits (String c rest) 0 with
  | Some u => if (minInt <=? u) && (u <=? maxInt) then Some u else None
  | None => None
  end.
Proof.
  destruct c as [[] [] [] [] [] [] [] []]; intros H;
    try (vm_compute in H; discriminate H); reflexivity.
Qed.

(** [Atoi] reads back what [Itoa] prints, for every value of Go's [int]. *)
Lemma Atoi_Itoa (n : Z) : minInt <= n <= maxInt -> Atoi (Itoa n) = Some n.
Proof.
  intros Hn. unfold Itoa. destruct (Z.ltb_spec n 0) as [Hneg | Hpos].
  - destruct (formatBits_parse 20 (- n) "") as (ds & Hds & Hp).
    { unfold minInt in Hn. change (10 ^ Z.of_nat 20) with 100000000000000000000. lia. }
    destruct (formatBits_nonempty 19 (- n) "") as (c & rest & Hc).
    unfold Atoi. rewrite Hc. rewrite <- Hc, Hds.
    rewrite append_empty_r, Hp, Z.opp_involutive.
    destruct (Z.leb_spec minInt n), (Z.leb_spec n maxInt); try lia. reflexivity.
  - destruct (formatBits_parse 20 n "") as (ds & Hds & Hp).
    { unfold maxInt in Hn. change (10 ^ Z.of_nat 20) with 100000000000000000000. lia. }
    rewrite Hds, append_empty_r.
    destruct (formatBits_nonempty 19 n "") as (c & rest & Hc).
    rewrite Hds, append_empty_r in Hc. subst ds.
    assert (Hd : exists d, digitVal c = Some d).
    { simpl in Hp. destruct (digitVal c); [eauto | discriminate]. }
    destruct Hd as (d & Hd). rewrite (Atoi_unsigned c rest d Hd), Hp.
    destruct (Z.leb_spec minInt n), (Z.leb_spec n maxInt); try lia. reflexivity.
Qed.

(** Setting headers with distinct names gives the same map in whatever
    order [range] yields them. *)
Lemma setHeaders_perm (hs1 hs2 : list (string * string)) :
  Permutation hs1 hs2 -> NoDup (map fst hs1) ->
  forall h, setHeaders hs1 h = setHeaders hs2 h.
Proof.
  unfold setHeaders.
  induction 1 as [|x l l' _ IH|x y l|l l' l'' H1 IH1 H2 IH2]; intros Hnd h; simpl.
  - reflexivity.
  - apply IH. now inversion Hnd.
  - f_equal. apply insert_insert_ne.
    inversion Hnd as [|? ? Hnotin _]; subst. intros Heq.
    rewrite Heq in Hnotin. apply Hnotin. constructor.
  - rewrite IH1 by exact Hnd. apply IH2.
    pose proof (Permutation_map fst H1) as Hp. now rewrite <- Hp.
Qed.

Lemma setHeaders_refresh_order (r : Request) (hs : list (string * string))
    (h : gmap string string) :
  Permutation hs (refreshHeaders r) ->
  setHeaders hs h = setHeaders (refreshHeaders r) h.
Proof.
  intros H. symmetry. apply setHeaders_perm; [now symmetry|].
  change (map fst (refreshHeaders r)) with
    ["Content-Type"; "Access-Control-Allow-Origin"; "Access-Control-Allow-Credentials"].
  apply (bool_decide_unpack _). vm_compute. exact I.
Qed.

Lemma fallbackName_some (path : string) (code : Z) (ext : string) :
  exists c rest, Itoa code = String c rest /\
    fallbackName path code ext = Some (path +:+ "/" +:+ String c "xx" +:+ ext).
Proof.
  unfold fallbackName. destruct (Itoa_nonempty code) as (c & rest & ->). eauto.
Qed.

(** ** The handler in terms of its selection *)

Lemma errorHandler_eq path visit w r :
  errorHandler path visit w r =
  let hdrs := (resolveOutput w path visit r (classifiedHeaders w r)
                 (classifiedExt w r) (resolveCode r)).1 in
  match selContent path visit w r with
  | Some v => writeResponse hdrs (selCode path visit w r) v (recordMetrics w r)
  | None =>
      match Open w (selFilename path visit w r) with
      | None =>
          match fallbackName path (resolveCode r) (classifiedExt w r) with
          | None => {| headers := hdrs; emitted := IndexPanic; samples := [] |}
          | Some fallback =>
              match Open w fallback with
              | None =>
                  {| headers := notFoundHeaders hdrs; emitted := NotFound;
                     samples := [] |}
              | Some f => writeResponse hdrs (resolveCode r) f []
              end
          end
      | Some f => writeResponse hdrs (selCode path visit w r) f (recordMetrics w r)
      end
  end.
Proof.
  unfold errorHandler, selContent, selFilename, selCode, selection,
    classifiedHeaders, classifiedExt, classifiedFormat.
  destruct (resolveFormat w r) as [format ext]; simpl.
  destruct (resolveOutput _ _ _ _ _ _ _) as [hdrs [[filename content] customCode]].
  reflexivity.
Qed.

(** ** The response writer *)

Lemma validStatus_true (code : Z) : validStatus code = true <-> 100 <= code <= 999.
Proof. unfold validStatus. rewrite andb_true_iff, !Z.leb_le. tauto. Qed.

Lemma headers_writeResponse hdrs code body after :
  headers (writeResponse hdrs code body after) = hdrs.
Proof. unfold writeResponse. now destruct (validStatus code). Qed.

Lemma emitted_writeResponse hdrs code body after :
  emitted (writeResponse hdrs code body after) =
  if validStatus code then Wrote code body else InvalidCode code.
Proof. unfold writeResponse. now destruct (validStatus code). Qed.

Lemma samples_writeResponse hdrs code body after :
  samples (writeResponse hdrs code body after) =
  if validStatus code then after else [].
Proof. unfold writeResponse. now destruct (validStatus code). Qed.

Lemma writeResponse_valid hdrs code body after :
  100 <= code <= 999 ->
  writeResponse hdrs code body after =
  {| headers := hdrs; emitted := Wrote code body; samples := after |}.
Proof. intros H. apply validStatus_true in H. unfold writeResponse. now rewrite H. Qed.

(** ** Extension normalization *)

(** C9. Adding the leading "." is idempotent: normalizing a second time
    changes nothing, an extension that already starts with "." is left as
    it is, and the separator is never doubled. *)
Theorem normalizeExt_idempotent (s rest : string) :
  normalizeExt (normalizeExt s) = normalizeExt s /\
  normalizeExt ("." +:+ rest) = "." +:+ rest /\
  HasPrefix (normalizeExt s) "." = true.
Proof.
  assert (Hdot : forall t, HasPrefix (normalizeExt t) "." = true).
  { intros t. unfold normalizeExt.
    destruct (HasPrefix t ".") eqn:E; simpl; [exact E | reflexivity]. }
  split; [|split].
  - unfold normalizeExt at 1. now rewrite Hdot.
  - reflexivity.
  - apply Hdot.
Qed.

Lemma normalizeExt_idempotent_witness :
  normalizeExt (normalizeExt "json") = normalizeExt "json" /\
  normalizeExt ("." +:+ "html") = "." +:+ "html" /\
  HasPrefix (normalizeExt "json") "." = true.
Proof. exact (normalizeExt_idempotent "json" "html"). Defined.

(** ** The first byte of the decimal status code *)

(** C10. [strconv.Itoa(code)] is never empty, so [scode[0]] is in bounds
    for every [code]: it is '0' for zero and '-' for a negative code, the
    fallback name is always built, and the handler never ends in the
    out-of-range outcome. *)
Theorem scode_index_in_bounds (code : Z) (p : positive) (path ext : string)
    (visit : list (string * gmap string string)) (w : World) (r : Request) :
  (exists c rest, Itoa code = String c rest) /\
  Itoa 0 = "0" /\
  (exists rest, Itoa (Z.neg p) = String "-" rest) /\
  is_Some (fallbackName path code ext) /\
  emitted (errorHandler path visit w r) <> IndexPanic.
Proof.
  split; [apply Itoa_nonempty|].
  split; [reflexivity|].
  split; [unfold Itoa; simpl; eauto|].
  split.
  - destruct (fallbackName_some path code ext) as (c & rest & _ & ->). eauto.
  - rewrite errorHandler_eq. simpl.
    destruct (selContent path visit w r);
      [rewrite emitted_writeResponse; destruct (validStatus _); discriminate|].
    destruct (Open w (selFilename path visit w r));
      [rewrite emitted_writeResponse; destruct (validStatus _); discriminate|].
    destruct (fallbackName_some path (resolveCode r) (classifiedExt w r))
      as (c & rest & _ & ->).
    destruct (Open w _); [|discriminate].
    rewrite emitted_writeResponse; destruct (validStatus _); discriminate.
Qed.

Lemma scode_index_in_bounds_witness :
  (exists c rest, Itoa (-503) = String c rest) /\
  Itoa 0 = "0" /\
  (exists rest, Itoa (Z.neg 7) = String "-" rest) /\
  is_Some (fallbackName "/www" (-503) ".html") /\
  emitted (errorHandler "/www" refreshEndpoints (mkWorld envNone goMime)
             (mkRequest {[ "X-Code" := "-503" ]})) <> IndexPanic.
Proof.
  exact (scode_index_in_bounds (-503) 7 "/www" ".html" refreshEndpoints
           (mkWorld envNone goMime) (mkRequest {[ "X-Code" := "-503" ]})).
Defined.

(** ** Requests the override resolver leaves alone *)

Lemma resolveOutput_other w path visit r hdrs ext code :
  String.eqb (mget (Header r) ServiceName) "refresh" = false ->
  resolveOutput w path visit r hdrs ext code =
  (hdrs, (path +:+ "/" +:+ Itoa code +:+ ext, None, code)).
Proof. unfold resolveOutput. now intros ->. Qed.

Lemma selection_other path visit w r :
  String.eqb (mget (Header r) ServiceName) "refresh" = false ->
  selFilename path visit w r =
    path +:+ "/" +:+ Itoa (resolveCode r) +:+ classifiedExt w r /\
  selContent path visit w r = None /\
  selCode path visit w r = resolveCode r.
Proof.
  intros H. unfold selFilename, selContent, selCode, selection.
  now rewrite resolveOutput_other.
Qed.

Lemma headers_errorHandler path visit w r :
  headers (errorHandler path visit w r) =
  match emitted (errorHandler path visit w r) with
  | NotFound =>
      notFoundHeaders
        (resolveOutput w path visit r (classifiedHeaders w r) (classifiedExt w r)
           (resolveCode r)).1
  | _ =>
      (resolveOutput w path visit r (classifiedHeaders w r) (classifiedExt w r)
         (resolveCode r)).1
  end.
Proof.
  rewrite errorHandler_eq. simpl.
  destruct (selContent path visit w r);
    [rewrite headers_writeResponse, emitted_writeResponse;
     now destruct (validStatus _)|].
  destruct (Open w (selFilename path visit w r));
    [rewrite headers_writeResponse, emitted_writeResponse;
     now destruct (validStatus _)|].
  destruct (fallbackName _ _ _); [|reflexivity].
  destruct (Open w _); [|reflexivity].
  rewrite headers_writeResponse, emitted_writeResponse.
  now destruct (validStatus _).
Qed.

Lemma lookup_notFoundHeaders_ne (h : gmap string string) (k : string) :
  k <> "X-Content-Type-Options" -> k <> ContentType ->
  notFoundHeaders h !! k = h !! k.
Proof.
  intros H1 H2. unfold notFoundHeaders.
  rewrite !lookup_insert_ne by congruence. reflexivity.
Qed.

(** A header that [http.NotFound] does not set is as the handler left it. *)
Lemma headers_errorHandler_other path visit w r (k : string) :
  k <> "X-Content-Type-Options" -> k <> ContentType ->
  headers (errorHandler path visit w r) !! k =
  (resolveOutput w path visit r (classifiedHeaders w r) (classifiedExt w r)
     (resolveCode r)).1 !! k.
Proof.
  intros H1 H2. rewrite headers_errorHandler.
  destruct (emitted _); try reflexivity. now apply lookup_notFoundHeaders_ne.
Qed.

(** ** Status code resolution *)

(** When [X-Code] is absent or is not an integer [strconv.Atoi] accepts,
    the resolved code is 404; the class-level
    fallback is then [4xx], and for a request of a service other than
    [refresh] the handler looks for [<path>/404<ext>] first and writes 404
    with whichever file it serves. *)
Lemma missing_code_is_404 (path : string)
    (visit : list (string * gmap string string)) (w : World) (r : Request) :
  mget (Header r) CodeHeader = "" \/ Atoi (mget (Header r) CodeHeader) = None ->
  resolveCode r = 404 /\
  fallbackName path (resolveCode r) (classifiedExt w r) =
    Some (path +:+ "/4xx" +:+ classifiedExt w r) /\
  (mget (Header r) ServiceName = "refresh" \/
   emitted (errorHandler path visit w r) =
     match Open w (path +:+ "/404" +:+ classifiedExt w r) with
     | Some f => Wrote 404 f
     | None =>
         match Open w (path +:+ "/4xx" +:+ classifiedExt w r) with
         | Some f => Wrote 404 f
         | None => NotFound
         end
     end).
Proof.
  intros H.
  assert (Hcode : resolveCode r = 404).
  { unfold resolveCode. destruct H as [-> | ->]; reflexivity. }
  split; [exact Hcode|]. rewrite Hcode. split; [reflexivity|].
  destruct (String.eqb_spec (mget (Header r) ServiceName) "refresh") as [|Hne];
    [now left | right].
  apply String.eqb_neq in Hne.
  destruct (selection_other path visit w r Hne) as (Hf & Hc & Hs).
  rewrite errorHandler_eq, Hc, Hf, Hs, Hcode. simpl.
  destruct (Open w _); [reflexivity|].
  unfold fallbackName. simpl.
  destruct (Open w _); reflexivity.
Qed.

(** C8, the handler at a [refresh] request without [X-Code], with no
    maintenance variable set and no match key in the URI: the code resolves
    to 404 and selects [<path>/404.json], which is there, but the code
    passed to [WriteHeader] is the 0 [modifyOutput] returned, not 404; the
    writer refuses it and nothing is sent. *)
Lemma missing_code_refresh_status :
  mget (Header (mkRequest {[ "X-Service-Name" := "refresh";
                             "X-Format" := "application/json";
                             "X-Original-URI" := "/" ]})) CodeHeader = "" /\
  resolveCode (mkRequest {[ "X-Service-Name" := "refresh";
                            "X-Format" := "application/json";
                            "X-Original-URI" := "/" ]}) = 404 /\
  selection "/www" refreshEndpoints (mkWorld envNone goMime)
    (mkRequest {[ "X-Service-Name" := "refresh";
                  "X-Format" := "application/json";
                  "X-Original-URI" := "/" ]})
    = ("/www/404.json", None, 0) /\
  Open (mkWorld envNone goMime) "/www/404.json" = Some "{ 'message': 'not found' }" /\
  emitted (errorHandler "/www" refreshEndpoints (mkWorld envNone goMime)
    (mkRequest {[ "X-Service-Name" := "refresh";
                  "X-Format" := "application/json";
                  "X-Original-URI" := "/" ]}))
    = InvalidCode 0.
Proof. repeat split; reflexivity. Qed.

(** ** Format resolution *)

(** C7, counterexample. With the media type table of Go's [mime] package a
    request without [X-Format] gets the extension [.htm]: the handler looks
    for [404.htm] and [4xx.htm] and, although [404.html] is there, ends in
    "not found". *)
Lemma default_extension_htm :
  mget (Header (mkRequest ∅)) FormatHeader = "" /\
  classifiedExt (mkWorld envNone goMime) (mkRequest ∅) = ".htm" /\
  classifiedExt (mkWorld envNone goMime) (mkRequest ∅) <> ".html" /\
  Open (mkWorld envNone goMime) "/www/404.html" = Some "<h1>404</h1>" /\
  emitted (errorHandler "/www" refreshEndpoints (mkWorld envNone goMime)
             (mkRequest ∅)) = NotFound.
Proof. repeat split; try reflexivity. discriminate. Qed.

(** C7, amended. For a request without [X-Format] the resolved content type
    is [text/html]; the extension is the first one the media type table
    lists for [text/html], with a leading "." ensured, and it is [.html]
    when the lookup fails or lists nothing. *)
Theorem default_format (w : World) (r : Request) :
  mget (Header r) FormatHeader = "" ->
  classifiedFormat w r = "text/html" /\
  classifiedHeaders w r !! ContentType = Some "text/html" /\
  classifiedExt w r =
    match ExtensionsByType w "text/html" with
    | Some (e :: _) => normalizeExt e
    | _ => ".html"
    end.
Proof.
  intros H.
  assert (Hf : classifiedFormat w r = "text/html").
  { unfold classifiedFormat, resolveFormat. rewrite H. simpl.
    destruct (ExtensionsByType w "text/html") as [[|e l]|]; reflexivity. }
  split; [exact Hf|]. split.
  - unfold classifiedHeaders. rewrite Hf. apply lookup_insert_eq.
  - unfold classifiedExt, resolveFormat. rewrite H. simpl.
    destruct (ExtensionsByType w "text/html") as [[|e l]|]; reflexivity.
Qed.

Lemma default_format_witness :
  classifiedFormat (mkWorld envNone htmlMime) (mkRequest {[ "X-Code" := "503" ]})
    = "text/html" /\
  classifiedHeaders (mkWorld envNone htmlMime) (mkRequest {[ "X-Code" := "503" ]})
    !! ContentType = Some "text/html" /\
  classifiedExt (mkWorld envNone htmlMime) (mkRequest {[ "X-Code" := "503" ]})
    = ".html".
Proof.
  apply (default_format (mkWorld envNone htmlMime) (mkRequest {[ "X-Code" := "503" ]})).
  reflexivity.
Defined.

(** ** The Content-Type header *)

Lemma classifiedFormat_eq (w : World) (r : Request) :
  classifiedFormat w r =
  match ExtensionsByType w (rawFormat r) with
  | None => "text/html"
  | Some _ => rawFormat r
  end.
Proof.
  unfold classifiedFormat, resolveFormat, rawFormat.
  destruct (ExtensionsByType w _) as [[|e l]|]; reflexivity.
Qed.

Lemma setHeaders_refresh_ContentType (r : Request) (h : gmap string string) :
  setHeaders (refreshHeaders r) h !! ContentType =
  Some "application/vnd.api+json; charset=utf-8".
Proof.
  unfold setHeaders, refreshHeaders, ContentType. simpl.
  rewrite !lookup_insert_ne by discriminate.
  apply lookup_insert_eq.
Qed.

(** C5, counterexample. A format the media type lookup rejects is replaced
    by [text/html]; for a [refresh] request the header is the fixed JSON
    type whatever [X-Format] says; and on the not-found path the reply
    carries the Content-Type of [http.NotFound]. *)
Lemma content_type_not_verbatim :
  (emitted (errorHandler "/www" refreshEndpoints (mkWorld envNone goMime)
              (mkRequest {[ "X-Format" := "text html" ]}))
     = Wrote 404 "<h1>404</h1>" /\
   headers (errorHandler "/www" refreshEndpoints (mkWorld envNone goMime)
              (mkRequest {[ "X-Format" := "text html" ]})) !! ContentType
     = Some "text/html") /\
  (emitted (errorHandler "/www" refreshEndpoints (mkWorld envNone goMime)
              (mkRequest {[ "X-Format" := "application/json";
                            "X-Service-Name" := "refresh";
                            "X-Original-URI" := "/version-checks/fresha" ]}))
     = Wrote 200 "{ 'fresha': true }" /\
   headers (errorHandler "/www" refreshEndpoints (mkWorld envNone goMime)
              (mkRequest {[ "X-Format" := "application/json";
                            "X-Service-Name" := "refresh";
                            "X-Original-URI" := "/version-checks/fresha" ]}))
     !! ContentType = Some "application/vnd.api+json; charset=utf-8") /\
  (emitted (errorHandler "/www" refreshEndpoints (mkWorld envNone goMime)
              (mkRequest {[ "X-Format" := "application/json";
                            "X-Code" := "302" ]})) = NotFound /\
   headers (errorHandler "/www" refreshEndpoints (mkWorld envNone goMime)
              (mkRequest {[ "X-Format" := "application/json";
                            "X-Code" := "302" ]})) !! ContentType
     = Some "text/plain; charset=utf-8").
Proof. repeat split; reflexivity. Qed.

(** C5, amended. Line 156 sets Content-Type to the [X-Format] value as it
    came ([text/html] when absent) whenever the media type lookup returns no
    error, also when it finds no extension, and to [text/html] when the
    lookup returns an error.  That value is the Content-Type of the response
    the handler writes for a request whose service is not [refresh]; for a
    [refresh] request the handler replaces it with
    [application/vnd.api+json; charset=utf-8] before it writes; and on the
    not-found path [http.NotFound] replaces either with
    [text/plain; charset=utf-8]. *)
Theorem content_type_header (path : string)
    (visit : list (string * gmap string string)) (w : World) (r : Request) :
  classifiedHeaders w r !! ContentType =
    Some (match ExtensionsByType w (rawFormat r) with
          | None => "text/html"
          | Some _ => rawFormat r
          end) /\
  headers (errorHandler path visit w r) !! ContentType =
    match emitted (errorHandler path visit w r) with
    | NotFound => Some "text/plain; charset=utf-8"
    | _ =>
        if String.eqb (mget (Header r) ServiceName) "refresh"
        then Some "application/vnd.api+json; charset=utf-8"
        else classifiedHeaders w r !! ContentType
    end.
Proof.
  split.
  - unfold classifiedHeaders. rewrite lookup_insert_eq.
    now rewrite classifiedFormat_eq.
  - assert (H : (resolveOutput w path visit r (classifiedHeaders w r)
                   (classifiedExt w r) (resolveCode r)).1 !! ContentType =
                if String.eqb (mget (Header r) ServiceName) "refresh"
                then Some "application/vnd.api+json; charset=utf-8"
                else classifiedHeaders w r !! ContentType).
    { unfold resolveOutput.
      destruct (String.eqb _ "refresh"); simpl; [|reflexivity].
      apply setHeaders_refresh_ContentType. }
    rewrite headers_errorHandler.
    destruct (emitted (errorHandler path visit w r)); try exact H.
    unfold notFoundHeaders. rewrite lookup_insert_ne by discriminate.
    apply lookup_insert_eq.
Qed.

Lemma content_type_header_witness :
  classifiedHeaders (mkWorld envNone goMime)
      (mkRequest {[ "X-Format" := "image/x-unknown" ]}) !! ContentType
    = Some "image/x-unknown" /\
  headers (errorHandler "/www" refreshEndpoints (mkWorld envNone goMime)
             (mkRequest {[ "X-Format" := "image/x-unknown" ]})) !! ContentType
    = Some "image/x-unknown".
Proof.
  exact (content_type_header "/www" refreshEndpoints (mkWorld envNone goMime)
           (mkRequest {[ "X-Format" := "image/x-unknown" ]})).
Defined.

(** ** The class-level fallback *)

(** C6. When the file the handler opens first (for a request the override
    resolver leaves alone, [<path>/<C><ext>]) cannot be opened and
    [<path>/<D>xx<ext>] can, [D] being the first digit of the status code
    [C] (three digits, as [WriteHeader] requires), the status written is
    [C], the code resolved from [X-Code], also when an override had put 200
    in [customCode], and the body is the content of the fallback file. *)
Theorem fallback_keeps_original_code (path : string)
    (visit : list (string * gmap string string)) (w : World) (r : Request)
    (D : ascii) (rest b : string) :
  100 <= resolveCode r <= 999 ->
  Itoa (resolveCode r) = String D rest ->
  selContent path visit w r = None ->
  Open w (selFilename path visit w r) = None ->
  Open w (path +:+ "/" +:+ String D "xx" +:+ classifiedExt w r) = Some b ->
  emitted (errorHandler path visit w r) = Wrote (resolveCode r) b.
Proof.
  intros Hr HD Hc Hp Hf.
  rewrite errorHandler_eq, Hc, Hp. simpl.
  unfold fallbackName. rewrite HD, Hf.
  now rewrite writeResponse_valid.
Qed.

Lemma fallback_keeps_original_code_witness :
  selFilename "/www" refreshEndpoints (mkWorld envNone goMime)
    (mkRequest {[ "X-Code" := "504"; "X-Format" := "application/json" ]})
    = "/www/504.json" /\
  emitted (errorHandler "/www" refreshEndpoints (mkWorld envNone goMime)
             (mkRequest {[ "X-Code" := "504"; "X-Format" := "application/json" ]}))
    = Wrote 504 "{ 'message': '5xx' }".
Proof.
  split; [reflexivity|].
  assert (Hr : 100 <= resolveCode (mkRequest {[ "X-Code" := "504";
                                               "X-Format" := "application/json" ]})
               <= 999) by (vm_compute; split; discriminate).
  exact (fallback_keeps_original_code "/www" refreshEndpoints
           (mkWorld envNone goMime)
           (mkRequest {[ "X-Code" := "504"; "X-Format" := "application/json" ]})
           "5" "04" "{ 'message': '5xx' }" Hr eq_refl eq_refl eq_refl eq_refl).
Defined.

(** A code [WriteHeader] refuses is refused on the fallback path as well:
    nothing is sent. *)
Example fallback_refused_code :
  emitted (errorHandler "/www" refreshEndpoints (mkWorld envNone goMime)
             (mkRequest {[ "X-Code" := "5000"; "X-Format" := "application/json" ]}))
    = InvalidCode 5000.
Proof. reflexivity. Qed.

(** The same on an override route whose file is missing: [customCode] is 200
    but the fallback is served with the code of the request. *)
Example fallback_after_missing_override :
  selection "/www" refreshEndpoints (mkWorld envNone goMime)
    (mkRequest {[ "X-Code" := "503"; "X-Format" := "application/json";
                  "X-Service-Name" := "refresh";
                  "X-Original-URI" := "/api/version-checks/shedul" ]})
    = ("/www/refresh-shedul.json", None, 200) /\
  emitted (errorHandler "/www" refreshEndpoints (mkWorld envNone goMime)
    (mkRequest {[ "X-Code" := "503"; "X-Format" := "application/json";
                  "X-Service-Name" := "refresh";
                  "X-Original-URI" := "/api/version-checks/shedul" ]}))
    = Wrote 503 "{ 'message': '5xx' }".
Proof. split; reflexivity. Qed.

(** ** The loop over the routes *)

Lemma rangeEndpoint_fresha w path uri filename content customCode :
  rangeEndpoint w path uri (filename, content, customCode) freshaRoute =
  if nonEmpty (Getenv w "REFRESH_FRESHA_MAINTENANCE") then
    (filename, Some (Getenv w "REFRESH_FRESHA_MAINTENANCE"), customCode)
  else if Contains uri "/version-checks/fresha" then
    (path +:+ "/refresh-fresha.json", content, 200)
  else (filename, content, customCode).
Proof. reflexivity. Qed.

Lemma rangeEndpoint_shedul w path uri filename content customCode :
  rangeEndpoint w path uri (filename, content, customCode) shedulRoute =
  if nonEmpty (Getenv w "REFRESH_SHEDUL_MAINTENANCE") then
    (filename, Some (Getenv w "REFRESH_SHEDUL_MAINTENANCE"), customCode)
  else if Contains uri "/version-checks/shedul" then
    (path +:+ "/refresh-shedul.json", content, 200)
  else (filename, content, customCode).
Proof. reflexivity. Qed.

(** The two orders in which [range] can visit the two routes. *)
Lemma visit_cases (visit : list (string * gmap string string)) :
  Permutation visit refreshEndpoints ->
  visit = refreshEndpoints \/ visit = rev refreshEndpoints.
Proof.
  intros H. symmetry in H. apply Permutation_length_2_inv in H.
  destruct H as [-> | ->]; [left | right]; reflexivity.
Qed.

(** A route whose variable is set puts its value in [content]. *)
Lemma rangeEndpoint_env_set w path uri st kv :
  nonEmpty (Getenv w (mget kv.2 "env")) = true ->
  (rangeEndpoint w path uri st kv).1.2 = Some (Getenv w (mget kv.2 "env")).
Proof.
  destruct st as [[f c] cc], kv as [k cfg]. simpl. now intros ->.
Qed.

(** Routes whose variables are empty leave [content] as it is. *)
Lemma fold_content_unset w path uri post :
  Forall (fun kv => Getenv w (mget kv.2 "env") = "") post ->
  forall st, (fold_left (rangeEndpoint w path uri) post st).1.2 = st.1.2.
Proof.
  induction 1 as [|[k cfg] post Hk _ IH]; intros st; simpl; [reflexivity|].
  rewrite IH. destruct st as [[f c] cc]. simpl in *. rewrite Hk. simpl.
  destruct (Contains uri k); reflexivity.
Qed.

Lemma fold_content_last_set w path uri pre kv post st :
  nonEmpty (Getenv w (mget kv.2 "env")) = true ->
  Forall (fun kv' => Getenv w (mget kv'.2 "env") = "") post ->
  (fold_left (rangeEndpoint w path uri) (pre ++ kv :: post)%list st).1.2 =
  Some (Getenv w (mget kv.2 "env")).
Proof.
  intros Hset Hpost. rewrite fold_left_app. simpl.
  rewrite fold_content_unset by exact Hpost.
  now apply rangeEndpoint_env_set.
Qed.

(** C4, counterexample. With both variables set, the two orders in which the
    map of routes can be visited give different contents on the same
    inputs. *)
Lemma range_order_matters :
  Permutation (rev refreshEndpoints) refreshEndpoints /\
  (modifyOutput (mkWorld envBoth goMime) ∅ ".html" "/www" "refresh" "/"
     [] refreshEndpoints 503 200).2
    = ("/www/503.html", Some "shedul is down", 0) /\
  (modifyOutput (mkWorld envBoth goMime) ∅ ".html" "/www" "refresh" "/"
     [] (rev refreshEndpoints) 503 200).2
    = ("/www/503.html", Some "fresha is down", 0).
Proof.
  split; [apply perm_swap|]. split; reflexivity.
Qed.

(** C4, amended. The routes are the entries of a Go map and are visited in
    an order the runtime picks.  In whichever order they are visited, the
    last visited route whose variable is non-empty determines the literal
    content; and every order gives the same file name, content and code
    unless both variables are non-empty with different values, or both are
    empty while both match keys occur in the URI. *)
Theorem override_visiting_order (w : World) (hdrs : gmap string string)
    (ext path service uri : string) (headers : list (string * string))
    (ingressCode returnCode : Z)
    (visit pre post : list (string * gmap string string))
    (route : string * gmap string string) :
  Permutation visit refreshEndpoints ->
  (visit = (pre ++ route :: post)%list ->
   Getenv w (mget route.2 "env") <> "" ->
   Forall (fun kv => Getenv w (mget kv.2 "env") = "") post ->
   (modifyOutput w hdrs ext path service uri headers visit
      ingressCode returnCode).2.1.2 = Some (Getenv w (mget route.2 "env"))) /\
  (Getenv w "REFRESH_FRESHA_MAINTENANCE" = "" \/
   Getenv w "REFRESH_SHEDUL_MAINTENANCE" = "" \/
   Getenv w "REFRESH_FRESHA_MAINTENANCE" = Getenv w "REFRESH_SHEDUL_MAINTENANCE" ->
   Getenv w "REFRESH_FRESHA_MAINTENANCE" <> "" \/
   Getenv w "REFRESH_SHEDUL_MAINTENANCE" <> "" \/
   Contains uri "/version-checks/fresha" = false \/
   Contains uri "/version-checks/shedul" = false ->
   modifyOutput w hdrs ext path service uri headers visit ingressCode returnCode =
   modifyOutput w hdrs ext path service uri headers refreshEndpoints
     ingressCode returnCode).
Proof.
  intros Hperm. split.
  - intros -> Hset Hpost. unfold modifyOutput. simpl.
    apply fold_content_last_set; [now apply nonEmpty_true | exact Hpost].
  - intros Henv Huri.
    destruct (visit_cases visit Hperm) as [-> | ->]; [reflexivity|].
    unfold modifyOutput. f_equal.
    change (rev refreshEndpoints) with [shedulRoute; freshaRoute].
    unfold refreshEndpoints. cbn [fold_left].
    destruct (nonEmpty (Getenv w "REFRESH_FRESHA_MAINTENANCE")) eqn:E1,
             (nonEmpty (Getenv w "REFRESH_SHEDUL_MAINTENANCE")) eqn:E2,
             (Contains uri "/version-checks/fresha") eqn:U1,
             (Contains uri "/version-checks/shedul") eqn:U2;
      repeat (rewrite ?rangeEndpoint_shedul, ?rangeEndpoint_fresha,
                ?E1, ?E2, ?U1, ?U2);
      try reflexivity;
      rewrite ?nonEmpty_true, ?nonEmpty_false in E1, E2.
    all: try (destruct Huri as [|[|[|]]]; congruence).
    all: destruct Henv as [|[|]]; congruence.
Qed.

Lemma override_visiting_order_witness :
  (modifyOutput (mkWorld envBoth goMime) ∅ ".html" "/www" "refresh" "/" []
     (rev refreshEndpoints) 503 200).2.1.2 = Some "fresha is down" /\
  modifyOutput (mkWorld envFresha goMime) ∅ ".html" "/www" "refresh"
    "/version-checks/shedul" [] (rev refreshEndpoints) 503 200 =
  modifyOutput (mkWorld envFresha goMime) ∅ ".html" "/www" "refresh"
    "/version-checks/shedul" [] refreshEndpoints 503 200.
Proof.
  split.
  - apply (override_visiting_order (mkWorld envBoth goMime) ∅ ".html" "/www"
             "refresh" "/" [] 503 200 (rev refreshEndpoints)
             [shedulRoute] [] freshaRoute).
    + apply perm_swap.
    + reflexivity.
    + discriminate.
    + constructor.
  - apply (override_visiting_order (mkWorld envFresha goMime) ∅ ".html" "/www"
             "refresh" "/version-checks/shedul" [] 503 200
             (rev refreshEndpoints) [] [] freshaRoute).
    + apply perm_swap.
    + right. left. reflexivity.
    + left. discriminate.
Defined.

(** ** Requests of the refresh service *)

Lemma selection_refresh path visit w r :
  mget (Header r) ServiceName = "refresh" ->
  selection path visit w r =
  fold_left (rangeEndpoint w path (mget (Header r) OriginalURI)) visit
    (path +:+ "/" +:+ Itoa (resolveCode r) +:+ classifiedExt w r, None, 0).
Proof.
  intros H. unfold selection, resolveOutput. rewrite H. reflexivity.
Qed.

Lemma visit_not_both :
  refreshEndpoints <> rev refreshEndpoints.
Proof.
  intros H. apply (f_equal (map fst)) in H. discriminate H.
Qed.

(** With no variable set and no match key in the URI the loop changes
    nothing: the file is the default one and [customCode] still holds the
    zero value it was declared with. *)
Lemma selection_refresh_untouched path visit w r :
  Permutation visit refreshEndpoints ->
  mget (Header r) ServiceName = "refresh" ->
  Getenv w "REFRESH_FRESHA_MAINTENANCE" = "" ->
  Getenv w "REFRESH_SHEDUL_MAINTENANCE" = "" ->
  Contains (mget (Header r) OriginalURI) "/version-checks/fresha" = false ->
  Contains (mget (Header r) OriginalURI) "/version-checks/shedul" = false ->
  selection path visit w r =
  (path +:+ "/" +:+ Itoa (resolveCode r) +:+ classifiedExt w r, None, 0).
Proof.
  intros Hperm Hs E1 E2 U1 U2. rewrite selection_refresh by exact Hs.
  destruct (visit_cases visit Hperm) as [-> | ->].
  - unfold refreshEndpoints. cbn [fold_left].
    rewrite rangeEndpoint_fresha, E1, U1. cbn [nonEmpty String.eqb negb].
    now rewrite rangeEndpoint_shedul, E2, U2.
  - change (rev refreshEndpoints) with [shedulRoute; freshaRoute]. cbn [fold_left].
    rewrite rangeEndpoint_shedul, E2, U2. cbn [nonEmpty String.eqb negb].
    now rewrite rangeEndpoint_fresha, E1, U1.
Qed.

(** With the fresha variable set and the shedul variable empty, in either
    visiting order: the literal content is the value of the variable, and
    [customCode] is 200 only when the shedul route matched the URI;
    otherwise it is still 0. *)
Lemma maintenance_selection path visit w r :
  Permutation visit refreshEndpoints ->
  mget (Header r) ServiceName = "refresh" ->
  Getenv w "REFRESH_FRESHA_MAINTENANCE" <> "" ->
  Getenv w "REFRESH_SHEDUL_MAINTENANCE" = "" ->
  selContent path visit w r = Some (Getenv w "REFRESH_FRESHA_MAINTENANCE") /\
  selCode path visit w r =
    if Contains (mget (Header r) OriginalURI) "/version-checks/shedul"
    then 200 else 0.
Proof.
  intros Hperm Hs E1 E2. apply nonEmpty_true in E1.
  unfold selContent, selCode. rewrite selection_refresh by exact Hs.
  destruct (visit_cases visit Hperm) as [-> | ->];
    [unfold refreshEndpoints
    |change (rev refreshEndpoints) with [shedulRoute; freshaRoute]];
    cbn [fold_left];
    destruct (Contains (mget (Header r) OriginalURI) "/version-checks/shedul") eqn:U2;
    repeat (rewrite ?rangeEndpoint_fresha, ?rangeEndpoint_shedul,
              ?E1, ?E2, ?U2; cbn [nonEmpty String.eqb negb]);
    split; reflexivity.
Qed.

(** So such a request, unless its URI holds the shedul key, makes the
    handler call [WriteHeader(0)]: the writer refuses the code, the body is
    never copied and no sample is recorded. *)
Lemma maintenance_literal_refused path visit w r :
  Permutation visit refreshEndpoints ->
  mget (Header r) ServiceName = "refresh" ->
  Getenv w "REFRESH_FRESHA_MAINTENANCE" <> "" ->
  Getenv w "REFRESH_SHEDUL_MAINTENANCE" = "" ->
  Contains (mget (Header r) OriginalURI) "/version-checks/shedul" = false ->
  emitted (errorHandler path visit w r) = InvalidCode 0 /\
  samples (errorHandler path visit w r) = [].
Proof.
  intros Hperm Hs E1 E2 U2.
  destruct (maintenance_selection path visit w r Hperm Hs E1 E2) as [Hc Hk].
  rewrite U2 in Hk. rewrite errorHandler_eq, Hc, Hk. split; reflexivity.
Qed.

(** C1, the handler at a [refresh] request for the fresha route with
    REFRESH_FRESHA_MAINTENANCE set: the literal content is the value of the
    variable, but [customCode] is the 0 it was declared with, the handler
    calls [WriteHeader(0)], and the writer refuses it: no status 200 and no
    body. *)
Lemma maintenance_status_zero :
  mget (Header (mkRequest {[ "X-Service-Name" := "refresh";
                             "X-Original-URI" := "/version-checks/fresha" ]}))
    ServiceName = "refresh" /\
  Getenv (mkWorld envFresha goMime) "REFRESH_FRESHA_MAINTENANCE" = "fresha is down" /\
  selection "/www" refreshEndpoints (mkWorld envFresha goMime)
    (mkRequest {[ "X-Service-Name" := "refresh";
                  "X-Original-URI" := "/version-checks/fresha" ]})
    = ("/www/404.htm", Some "fresha is down", 0) /\
  emitted (errorHandler "/www" refreshEndpoints (mkWorld envFresha goMime)
             (mkRequest {[ "X-Service-Name" := "refresh";
                           "X-Original-URI" := "/version-checks/fresha" ]}))
    = InvalidCode 0 /\
  emitted (errorHandler "/www" (rev refreshEndpoints) (mkWorld envFresha goMime)
             (mkRequest {[ "X-Service-Name" := "refresh";
                           "X-Original-URI" := "/version-checks/fresha" ]}))
    = InvalidCode 0.
Proof. repeat split; reflexivity. Qed.

(** C3, the handler at a [refresh] request with no variable set and no
    match key in the URI: the file is [<path>/503.json], found, and the code
    passed to [WriteHeader] is 0, not the 503 of the request; the writer
    refuses it. *)
Lemma refresh_default_status_zero :
  resolveCode (mkRequest {[ "X-Service-Name" := "refresh"; "X-Code" := "503";
                            "X-Format" := "application/json";
                            "X-Original-URI" := "/" ]}) = 503 /\
  selection "/www" refreshEndpoints (mkWorld envNone goMime)
    (mkRequest {[ "X-Service-Name" := "refresh"; "X-Code" := "503";
                  "X-Format" := "application/json";
                  "X-Original-URI" := "/" ]})
    = ("/www/503.json", None, 0) /\
  Open (mkWorld envNone goMime) "/www/503.json"
    = Some "{ 'message': 'unavailable' }" /\
  emitted (errorHandler "/www" refreshEndpoints (mkWorld envNone goMime)
    (mkRequest {[ "X-Service-Name" := "refresh"; "X-Code" := "503";
                  "X-Format" := "application/json";
                  "X-Original-URI" := "/" ]}))
    = InvalidCode 0.
Proof. repeat split; reflexivity. Qed.

(** The same for every such request and either visiting order: when the
    default file is there the handler calls [WriteHeader] with 0. *)
Lemma refresh_untouched_writes_zero path visit w r f :
  Permutation visit refreshEndpoints ->
  mget (Header r) ServiceName = "refresh" ->
  Getenv w "REFRESH_FRESHA_MAINTENANCE" = "" ->
  Getenv w "REFRESH_SHEDUL_MAINTENANCE" = "" ->
  Contains (mget (Header r) OriginalURI) "/version-checks/fresha" = false ->
  Contains (mget (Header r) OriginalURI) "/version-checks/shedul" = false ->
  Open w (path +:+ "/" +:+ Itoa (resolveCode r) +:+ classifiedExt w r) = Some f ->
  emitted (errorHandler path visit w r) = InvalidCode 0.
Proof.
  intros Hperm Hs E1 E2 U1 U2 Hf.
  pose proof (selection_refresh_untouched path visit w r Hperm Hs E1 E2 U1 U2) as Hsel.
  rewrite errorHandler_eq. unfold selContent, selFilename, selCode.
  rewrite Hsel. simpl. rewrite Hf. reflexivity.
Qed.

(** ** Metrics *)

(** The samples of a request: the pair of line 208-209 when literal content
    or the first file is written with a code the writer accepts, nothing
    when the writer refuses the code or once the first file failed to
    open. *)
Lemma samples_errorHandler path visit w r :
  samples (errorHandler path visit w r) =
  match selContent path visit w r with
  | Some _ => if validStatus (selCode path visit w r) then recordMetrics w r else []
  | None =>
      match Open w (selFilename path visit w r) with
      | Some _ =>
          if validStatus (selCode path visit w r) then recordMetrics w r else []
      | None => []
      end
  end.
Proof.
  rewrite errorHandler_eq. simpl.
  destruct (selContent path visit w r); [apply samples_writeResponse|].
  destruct (Open w (selFilename path visit w r)); [apply samples_writeResponse|].
  destruct (fallbackName _ _ _); [|reflexivity].
  destruct (Open w _); [|reflexivity].
  rewrite samples_writeResponse. now destruct (validStatus _).
Qed.

Lemma recordMetrics_once (w : World) (r : Request) :
  recordMetrics w r =
  [ CountInc (Itoa (ProtoMajor r) +:+ "." +:+ Itoa (ProtoMinor r));
    DurationObserve (Itoa (ProtoMajor r) +:+ "." +:+ Itoa (ProtoMinor r))
      (elapsed w) ].
Proof. reflexivity. Qed.

(** Whenever the class-level fallback is served no sample is recorded. *)
Lemma fallback_no_samples path visit w r :
  selContent path visit w r = None ->
  Open w (selFilename path visit w r) = None ->
  samples (errorHandler path visit w r) = [].
Proof. intros Hc Hp. now rewrite samples_errorHandler, Hc, Hp. Qed.

(** C2, the handler at a request served from the class-level fallback:
    [504.json] is missing, [5xx.json] is sent with status 504, and the
    handler returns before the metrics are recorded; a request served from
    its own file records the two samples. *)
Lemma fallback_records_no_metric :
  Open (mkWorld envNone goMime) "/www/504.json" = None /\
  emitted (errorHandler "/www" refreshEndpoints (mkWorld envNone goMime)
             (mkRequest {[ "X-Code" := "504"; "X-Format" := "application/json" ]}))
    = Wrote 504 "{ 'message': '5xx' }" /\
  samples (errorHandler "/www" refreshEndpoints (mkWorld envNone goMime)
             (mkRequest {[ "X-Code" := "504"; "X-Format" := "application/json" ]}))
    = [] /\
  samples (errorHandler "/www" refreshEndpoints (mkWorld envNone goMime)
             (mkRequest {[ "X-Code" := "503"; "X-Format" := "application/json" ]}))
    = [CountInc "1.1"; DurationObserve "1.1" 1500].
Proof. repeat split; reflexivity. Qed.

(** * Further properties of the handler *)

(** ** The status code header *)

(** X1. An [X-Code] header that holds the decimal form of an [int] resolves
    to that value: nothing is lost between the header and the code. *)
Theorem resolveCode_decimal (r : Request) (n : Z) :
  minInt <= n <= maxInt ->
  mget (Header r) CodeHeader = Itoa n ->
  resolveCode r = n.
Proof.
  intros Hn Hh. unfold resolveCode. now rewrite Hh, Atoi_Itoa.
Qed.

Lemma resolveCode_decimal_witness :
  resolveCode (mkRequest {[ "X-Code" := "-9223372036854775808" ]}) = minInt.
Proof.
  apply (resolveCode_decimal (mkRequest {[ "X-Code" := "-9223372036854775808" ]})
           minInt).
  - unfold minInt, maxInt. lia.
  - reflexivity.
Defined.

(** X2. Whatever [X-Code] holds, the resolved code is a value of [int], and
    the decimal text the handler puts in the file name reads back as that
    code. *)
Theorem resolveCode_prints_back (r : Request) :
  minInt <= resolveCode r <= maxInt /\
  Atoi (Itoa (resolveCode r)) = Some (resolveCode r).
Proof.
  assert (H : minInt <= resolveCode r <= maxInt).
  { unfold resolveCode.
    destruct (Atoi (mget (Header r) CodeHeader)) as [n|] eqn:E.
    - now apply Atoi_range in E.
    - unfold minInt, maxInt. lia. }
  split; [exact H | now apply Atoi_Itoa].
Qed.

Lemma parseDigits_allDigits (s : string) :
  forall a u, parseDigits s a = Some u -> allDigits s = true.
Proof.
  induction s as [|c s IH]; intros a u H; simpl in *; [reflexivity|].
  destruct (digitVal c); [eauto | discriminate].
Qed.

Lemma Atoi_minus (rest : string) :
  Atoi (String "-" rest) =
  match rest with
  | EmptyString => None
  | _ => match parseDigits rest 0 with
         | Some u => if (minInt <=? - u) && (- u <=? maxInt) then Some (- u) else None
         | None => None
         end
  end.
Proof. reflexivity. Qed.

Lemma Atoi_plus_sign (rest : string) :
  Atoi (String "+" rest) =
  match rest with
  | EmptyString => None
  | _ => match parseDigits rest 0 with
         | Some u => if (minInt <=? u) && (u <=? maxInt) then Some u else None
         | None => None
         end
  end.
Proof. reflexivity. Qed.

(** What [strconv.Atoi] accepts: the text is not empty, its first byte is a
    sign or a digit, every later byte is a digit, and a sign is followed by
    at least one digit. *)
Lemma Atoi_syntax (s : string) (n : Z) :
  Atoi s = Some n ->
  exists c rest, s = String c rest /\ allDigits rest = true /\
    ((c = "-"%char \/ c = "+"%char) /\ rest <> "" \/ is_Some (digitVal c)).
Proof.
  destruct s as [|c rest]; [discriminate|]. intros H.
  exists c, rest. split; [reflexivity|].
  destruct (digitVal c) as [d|] eqn:Hd.
  - rewrite (Atoi_unsigned c rest d Hd) in H.
    destruct (parseDigits (String c rest) 0) as [u|] eqn:Hp; [|discriminate].
    simpl in Hp. rewrite Hd in Hp. split; [|right; eauto].
    eapply parseDigits_allDigits, Hp.
  - destruct c as [[] [] [] [] [] [] [] []];
      try (vm_compute in Hd; discriminate Hd);
      first [ rewrite Atoi_minus in H | rewrite Atoi_plus_sign in H
            | vm_compute in H; discriminate H ];
      (destruct rest as [|c' rest']; [discriminate H|]);
      (destruct (parseDigits (String c' rest') 0) as [u|] eqn:Hp; [|discriminate H]);
      (split; [eapply parseDigits_allDigits, Hp|]);
      left; (split; [auto | discriminate]).
Qed.

(** X3. A resolved code other than 404 can only come from an [X-Code] that
    is a decimal integer: not empty, a sign or a digit first, digits after
    it, and at least one digit after a sign.  A code with a blank, a
    decimal point or any other byte is replaced by 404. *)
Theorem code_header_shape (r : Request) :
  resolveCode r <> 404 ->
  exists c rest, mget (Header r) CodeHeader = String c rest /\
    allDigits rest = true /\
    ((c = "-"%char \/ c = "+"%char) /\ rest <> "" \/ is_Some (digitVal c)).
Proof.
  unfold resolveCode. intros H.
  destruct (Atoi (mget (Header r) CodeHeader)) as [n|] eqn:E; [|congruence].
  exact (Atoi_syntax _ n E).
Qed.

Lemma code_header_shape_witness :
  exists c rest,
    mget (Header (mkRequest {[ "X-Code" := "-40" ]})) CodeHeader = String c rest /\
    allDigits rest = true /\
    ((c = "-"%char \/ c = "+"%char) /\ rest <> "" \/ is_Some (digitVal c)).
Proof.
  assert (H : resolveCode (mkRequest {[ "X-Code" := "-40" ]}) <> 404)
    by discriminate.
  exact (code_header_shape (mkRequest {[ "X-Code" := "-40" ]}) H).
Defined.

(** ** Requests of other services *)

(** X4. For a request whose service is not [refresh] and whose code has
    three digits, when [<path>/<code><ext>] opens it is the body, the status
    is the resolved code, the two metric samples are recorded and the only
    headers are those of the classifier. *)
Theorem primary_file_served (path : string)
    (visit : list (string * gmap string string)) (w : World) (r : Request)
    (f : string) :
  mget (Header r) ServiceName <> "refresh" ->
  100 <= resolveCode r <= 999 ->
  Open w (path +:+ "/" +:+ Itoa (resolveCode r) +:+ classifiedExt w r) = Some f ->
  errorHandler path visit w r =
  {| headers := classifiedHeaders w r;
     emitted := Wrote (resolveCode r) f;
     samples := recordMetrics w r |}.
Proof.
  intros Hs Hr Hf. apply String.eqb_neq in Hs.
  destruct (selection_other path visit w r Hs) as (Hn & Hc & Hk).
  rewrite errorHandler_eq, Hc, Hn, Hf, Hk.
  rewrite resolveOutput_other by exact Hs. simpl.
  now apply writeResponse_valid.
Qed.

Lemma primary_file_served_witness :
  errorHandler "/www" refreshEndpoints (mkWorld envBoth goMime)
    (mkRequest {[ "X-Code" := "503"; "X-Format" := "application/json" ]}) =
  {| headers := {[ "Content-Type" := "application/json" ]};
     emitted := Wrote 503 "{ 'message': 'unavailable' }";
     samples := [CountInc "1.1"; DurationObserve "1.1" 1500] |}.
Proof.
  assert (Hs : mget (Header (mkRequest {[ "X-Code" := "503";
                                          "X-Format" := "application/json" ]}))
                 ServiceName <> "refresh") by discriminate.
  assert (Hr : 100 <= resolveCode (mkRequest {[ "X-Code" := "503";
                                               "X-Format" := "application/json" ]})
               <= 999) by (vm_compute; split; discriminate).
  exact (primary_file_served "/www" refreshEndpoints (mkWorld envBoth goMime)
           (mkRequest {[ "X-Code" := "503"; "X-Format" := "application/json" ]})
           "{ 'message': 'unavailable' }" Hs Hr eq_refl).
Defined.

(** X5. The override resolver does nothing for other services: such a
    request gets the same response whatever the maintenance variables hold
    and in whatever order the routes would be visited.  Of the environment
    only DEBUG matters to it. *)
Theorem other_service_ignores_overrides (path : string)
    (visit visit' : list (string * gmap string string)) (w : World)
    (env' : gmap string string) (r : Request) :
  mget (Header r) ServiceName <> "refresh" ->
  nonEmpty (mget env' "DEBUG") = nonEmpty (Getenv w "DEBUG") ->
  errorHandler path visit' (withEnviron w env') r = errorHandler path visit w r.
Proof.
  intros Hs Hd. apply String.eqb_neq in Hs.
  unfold errorHandler.
  assert (Hdbg : debugHeaders (withEnviron w env') r ∅ = debugHeaders w r ∅).
  { unfold debugHeaders. change (Getenv (withEnviron w env') "DEBUG") with (mget env' "DEBUG").
    now rewrite Hd. }
  rewrite Hdbg.
  change (resolveFormat (withEnviron w env') r) with (resolveFormat w r).
  destruct (resolveFormat w r) as [format ext].
  rewrite !resolveOutput_other by exact Hs.
  reflexivity.
Qed.

Lemma other_service_ignores_overrides_witness :
  errorHandler "/www" (rev refreshEndpoints)
    (withEnviron (mkWorld envNone goMime) envBoth)
    (mkRequest {[ "X-Code" := "503"; "X-Service-Name" := "booking" ]}) =
  errorHandler "/www" refreshEndpoints (mkWorld envNone goMime)
    (mkRequest {[ "X-Code" := "503"; "X-Service-Name" := "booking" ]}).
Proof.
  apply (other_service_ignores_overrides "/www" refreshEndpoints
           (rev refreshEndpoints) (mkWorld envNone goMime) envBoth
           (mkRequest {[ "X-Code" := "503"; "X-Service-Name" := "booking" ]})).
  - discriminate.
  - reflexivity.
Defined.

(** ** Literal content *)

Lemma selection_withFiles path visit w fs r :
  selection path visit (withFiles w fs) r = selection path visit w r.
Proof. reflexivity. Qed.

(** X6. When literal content was resolved no file is consulted: the whole
    outcome is the same over any other tree of files.  The content is the
    body when the writer accepts [customCode]; when it refuses it, nothing
    is sent. *)
Theorem literal_content_ignores_files (path : string)
    (visit : list (string * gmap string string)) (w : World) (r : Request)
    (v : string) (fs : gmap string string) :
  selContent path visit w r = Some v ->
  errorHandler path visit (withFiles w fs) r = errorHandler path visit w r /\
  emitted (errorHandler path visit w r) =
    if validStatus (selCode path visit w r)
    then Wrote (selCode path visit w r) v
    else InvalidCode (selCode path visit w r).
Proof.
  intros Hc. rewrite !errorHandler_eq.
  unfold selContent, selCode in *. rewrite selection_withFiles, Hc.
  split; [reflexivity | apply emitted_writeResponse].
Qed.

Lemma literal_content_ignores_files_witness :
  errorHandler "/www" refreshEndpoints
    (withFiles (mkWorld envFresha goMime) ∅)
    (mkRequest {[ "X-Service-Name" := "refresh";
                  "X-Original-URI" := "/version-checks/shedul" ]}) =
  errorHandler "/www" refreshEndpoints (mkWorld envFresha goMime)
    (mkRequest {[ "X-Service-Name" := "refresh";
                  "X-Original-URI" := "/version-checks/shedul" ]}) /\
  emitted (errorHandler "/www" refreshEndpoints (mkWorld envFresha goMime)
    (mkRequest {[ "X-Service-Name" := "refresh";
                  "X-Original-URI" := "/version-checks/shedul" ]}))
    = Wrote 200 "fresha is down".
Proof.
  exact (literal_content_ignores_files "/www" refreshEndpoints
           (mkWorld envFresha goMime)
           (mkRequest {[ "X-Service-Name" := "refresh";
                         "X-Original-URI" := "/version-checks/shedul" ]})
           "fresha is down" ∅ eq_refl).
Defined.

(** ** What the loop over the routes can produce *)

Lemma fold_rangeEndpoint_inv w path uri
    (P : string * option string * Z -> Prop)
    (eps : list (string * gmap string string)) :
  (forall st kv, kv ∈ eps -> P st -> P (rangeEndpoint w path uri st kv)) ->
  forall st, P st -> P (fold_left (rangeEndpoint w path uri) eps st).
Proof.
  induction eps as [|kv eps IH]; intros Hstep st Hst; simpl; [exact Hst|].
  apply IH.
  - intros st' kv' Hin. apply Hstep. now right.
  - apply Hstep; [now left | exact Hst].
Qed.

Lemma writeResponse_code hdrs code body after (c : Z) (b : string) :
  emitted (writeResponse hdrs code body after) = Wrote c b \/
  emitted (writeResponse hdrs code body after) = InvalidCode c ->
  c = code.
Proof.
  rewrite emitted_writeResponse. destruct (validStatus code); intros [H | H];
    congruence.
Qed.

(** X7. The only codes the handler ever passes to [WriteHeader], accepted
    by the writer or not, are the code resolved from [X-Code], 200, and 0
    (the value [customCode] is declared with in [modifyOutput]); for a
    service other than [refresh] it is always the resolved code.  This holds
    for any set of routes. *)
Theorem status_written_values (path : string)
    (visit : list (string * gmap string string)) (w : World) (r : Request)
    (c : Z) (b : string) :
  emitted (errorHandler path visit w r) = Wrote c b \/
  emitted (errorHandler path visit w r) = InvalidCode c ->
  (c = resolveCode r \/
   mget (Header r) ServiceName = "refresh" /\ (c = 0 \/ c = 200)).
Proof.
  assert (Hsel : selCode path visit w r = resolveCode r \/
                 mget (Header r) ServiceName = "refresh" /\
                 (selCode path visit w r = 0 \/ selCode path visit w r = 200)).
  { destruct (String.eqb_spec (mget (Header r) ServiceName) "refresh") as [Hs|Hs].
    - right. split; [exact Hs|]. unfold selCode.
      rewrite selection_refresh by exact Hs.
      apply (fold_rangeEndpoint_inv w path _ (fun st => st.2 = 0 \/ st.2 = 200));
        [|now left].
      intros [[f ct] cc] [k cfg] _ Hst. simpl in *.
      destruct (nonEmpty _); [exact Hst|].
      destruct (Contains _ k); [now right | exact Hst].
    - left. apply String.eqb_neq in Hs. apply (selection_other path visit w r Hs). }
  rewrite errorHandler_eq. simpl.
  destruct (selContent path visit w r).
  { intros H. apply writeResponse_code in H. now subst c. }
  destruct (Open w (selFilename path visit w r)).
  { intros H. apply writeResponse_code in H. now subst c. }
  destruct (fallbackName _ _ _); [|intros [H | H]; discriminate H].
  destruct (Open w _); [|intros [H | H]; discriminate H].
  intros H. apply writeResponse_code in H. now left.
Qed.

Lemma status_written_values_witness :
  (200 = resolveCode (mkRequest {[ "X-Code" := "503"; "X-Service-Name" := "refresh";
                                   "X-Original-URI" := "/version-checks/fresha" ]}) \/
   mget (Header (mkRequest {[ "X-Code" := "503"; "X-Service-Name" := "refresh";
                              "X-Original-URI" := "/version-checks/fresha" ]}))
     ServiceName = "refresh" /\ (200 = 0 \/ 200 = 200)) /\
  (0 = resolveCode (mkRequest {[ "X-Code" := "503"; "X-Service-Name" := "refresh" ]}) \/
   mget (Header (mkRequest {[ "X-Code" := "503"; "X-Service-Name" := "refresh" ]}))
     ServiceName = "refresh" /\ (0 = 0 \/ 0 = 200)).
Proof.
  split.
  - exact (status_written_values "/www" refreshEndpoints (mkWorld envNone goMime)
             (mkRequest {[ "X-Code" := "503"; "X-Service-Name" := "refresh";
                           "X-Original-URI" := "/version-checks/fresha" ]})
             200 "{ 'fresha': true }" (or_introl eq_refl)).
  - exact (status_written_values "/www" refreshEndpoints (mkWorld envFresha goMime)
             (mkRequest {[ "X-Code" := "503"; "X-Service-Name" := "refresh" ]})
             0 "" (or_intror eq_refl)).
Defined.

(** X8. Literal content arises only for a [refresh] request, is never
    empty, and is always the value of the variable of one of the visited
    routes. *)
Theorem literal_content_origin (path : string)
    (visit : list (string * gmap string string)) (w : World) (r : Request)
    (v : string) :
  selContent path visit w r = Some v ->
  mget (Header r) ServiceName = "refresh" /\ v <> "" /\
  exists kv, kv ∈ visit /\ v = Getenv w (mget kv.2 "env").
Proof.
  intros Hc.
  destruct (String.eqb_spec (mget (Header r) ServiceName) "refresh") as [Hs|Hs].
  - split; [exact Hs|]. unfold selContent in Hc.
    rewrite selection_refresh in Hc by exact Hs.
    revert Hc.
    apply (fold_rangeEndpoint_inv w path _
             (fun st => st.1.2 = Some v ->
                        v <> "" /\ exists kv, kv ∈ visit /\ v = Getenv w (mget kv.2 "env")));
      [|discriminate].
    intros [[f ct] cc] [k cfg] Hin Hst. simpl in *.
    destruct (nonEmpty (Getenv w (mget cfg "env"))) eqn:E.
    + simpl. intros [= <-]. split; [now apply nonEmpty_true|].
      exists (k, cfg). split; [exact Hin | reflexivity].
    + destruct (Contains _ k); exact Hst.
  - apply String.eqb_neq in Hs.
    destruct (selection_other path visit w r Hs) as (_ & Hnone & _). congruence.
Qed.

Lemma literal_content_origin_witness :
  mget (Header (mkRequest {[ "X-Service-Name" := "refresh" ]})) ServiceName
    = "refresh" /\
  "shedul is down" <> "" /\
  exists kv, kv ∈ refreshEndpoints /\
    "shedul is down" = Getenv (mkWorld envBoth goMime) (mget kv.2 "env").
Proof.
  exact (literal_content_origin "/www" refreshEndpoints (mkWorld envBoth goMime)
           (mkRequest {[ "X-Service-Name" := "refresh" ]}) "shedul is down" eq_refl).
Defined.

(** X9. The file the handler opens first is [<path>/<code><ext>], or, for a
    [refresh] request, the file of a visited route whose key occurs in
    X-Original-URI and whose variable is empty.  This holds for any set of
    routes. *)
Theorem first_file_origin (path : string)
    (visit : list (string * gmap string string)) (w : World) (r : Request) :
  selFilename path visit w r =
    path +:+ "/" +:+ Itoa (resolveCode r) +:+ classifiedExt w r \/
  mget (Header r) ServiceName = "refresh" /\
  exists kv, kv ∈ visit /\
    selFilename path visit w r = path +:+ "/" +:+ mget kv.2 "file" /\
    Contains (mget (Header r) OriginalURI) kv.1 = true /\
    Getenv w (mget kv.2 "env") = "".
Proof.
  destruct (String.eqb_spec (mget (Header r) ServiceName) "refresh") as [Hs|Hs].
  - unfold selFilename. rewrite selection_refresh by exact Hs.
    apply (fold_rangeEndpoint_inv w path _
             (fun st => st.1.1 = path +:+ "/" +:+ Itoa (resolveCode r) +:+ classifiedExt w r \/
                        mget (Header r) ServiceName = "refresh" /\
                        exists kv, kv ∈ visit /\
                          st.1.1 = path +:+ "/" +:+ mget kv.2 "file" /\
                          Contains (mget (Header r) OriginalURI) kv.1 = true /\
                          Getenv w (mget kv.2 "env") = ""));
      [|now left].
    intros [[f ct] cc] [k cfg] Hin Hst. simpl in *.
    destruct (nonEmpty (Getenv w (mget cfg "env"))) eqn:E; [exact Hst|].
    destruct (Contains _ k) eqn:U; [|exact Hst].
    right. split; [exact Hs|]. exists (k, cfg). simpl.
    repeat split; [exact Hin | exact U | now apply nonEmpty_false].
  - left. apply String.eqb_neq in Hs. apply (selection_other path visit w r Hs).
Qed.

(** X10. A [refresh] request whose URI contains the key of one route and
    not the key of the other, with both maintenance variables empty, is
    answered from that route's file with status 200, in either visiting
    order, with the refresh headers set and the metrics recorded. *)
Theorem route_file_served (path : string)
    (visit : list (string * gmap string string)) (w : World) (r : Request)
    (kv other : string * gmap string string) (f : string) :
  Permutation visit refreshEndpoints ->
  (kv = freshaRoute /\ other = shedulRoute) \/
  (kv = shedulRoute /\ other = freshaRoute) ->
  mget (Header r) ServiceName = "refresh" ->
  Getenv w "REFRESH_FRESHA_MAINTENANCE" = "" ->
  Getenv w "REFRESH_SHEDUL_MAINTENANCE" = "" ->
  Contains (mget (Header r) OriginalURI) kv.1 = true ->
  Contains (mget (Header r) OriginalURI) other.1 = false ->
  Open w (path +:+ "/" +:+ mget kv.2 "file") = Some f ->
  errorHandler path visit w r =
  {| headers := setHeaders (refreshHeaders r) (classifiedHeaders w r);
     emitted := Wrote 200 f;
     samples := recordMetrics w r |}.
Proof.
  intros Hperm Hkv Hs E1 E2 U1 U2 Hf.
  assert (Hsel : selection path visit w r =
                 (path +:+ "/" +:+ mget kv.2 "file", None, 200)).
  { rewrite selection_refresh by exact Hs.
    destruct (visit_cases visit Hperm) as [-> | ->];
      [unfold refreshEndpoints
      |change (rev refreshEndpoints) with [shedulRoute; freshaRoute]];
      cbn [fold_left];
      destruct Hkv as [[-> ->] | [-> ->]]; simpl in U1, U2;
      repeat (rewrite ?rangeEndpoint_fresha, ?rangeEndpoint_shedul,
                ?E1, ?E2, ?U1, ?U2; cbn [nonEmpty String.eqb negb]);
      reflexivity. }
  rewrite errorHandler_eq. unfold selContent, selFilename, selCode.
  rewrite Hsel. simpl. rewrite Hf.
  unfold resolveOutput. apply String.eqb_eq in Hs. rewrite Hs. reflexivity.
Qed.

Lemma route_file_served_witness :
  errorHandler "/www" (rev refreshEndpoints) (mkWorld envNone goMime)
    (mkRequest {[ "X-Service-Name" := "refresh"; "X-Code" := "503";
                  "X-Original-URI" := "/api/version-checks/fresha?v=2" ]}) =
  {| headers := setHeaders
                  (refreshHeaders
                     (mkRequest {[ "X-Service-Name" := "refresh"; "X-Code" := "503";
                                   "X-Original-URI" := "/api/version-checks/fresha?v=2" ]}))
                  {[ "Content-Type" := "text/html" ]};
     emitted := Wrote 200 "{ 'fresha': true }";
     samples := [CountInc "1.1"; DurationObserve "1.1" 1500] |}.
Proof.
  exact (route_file_served "/www" (rev refreshEndpoints) (mkWorld envNone goMime)
    (mkRequest {[ "X-Service-Name" := "refresh"; "X-Code" := "503";
                  "X-Original-URI" := "/api/version-checks/fresha?v=2" ]})
    freshaRoute shedulRoute "{ 'fresha': true }"
    (perm_swap _ _ _) (or_introl (conj eq_refl eq_refl))
    eq_refl eq_refl eq_refl eq_refl eq_refl eq_refl).
Defined.

(** ** Response headers *)

(** X11. The first loop of [modifyOutput] sets one header per entry of a map,
    whose names are distinct: its result, and so the result of
    [modifyOutput], is the same in whatever order [range] yields the
    entries. *)
Theorem modifyOutput_headers_order (w : World) (hdrs : gmap string string)
    (ext path service uri : string) (headers headers' : list (string * string))
    (endpoints : list (string * gmap string string))
    (ingressCode returnCode : Z) :
  Permutation headers headers' ->
  NoDup (map fst headers) ->
  modifyOutput w hdrs ext path service uri headers endpoints ingressCode returnCode =
  modifyOutput w hdrs ext path service uri headers' endpoints ingressCode returnCode.
Proof.
  intros Hperm Hnd. unfold modifyOutput.
  now rewrite (setHeaders_perm headers headers' Hperm Hnd).
Qed.

Lemma modifyOutput_headers_order_witness :
  modifyOutput (mkWorld envNone goMime) ∅ ".json" "/www" "refresh" "/"
    [("Content-Type", "a"); ("Access-Control-Allow-Origin", "b")]
    refreshEndpoints 503 200 =
  modifyOutput (mkWorld envNone goMime) ∅ ".json" "/www" "refresh" "/"
    [("Access-Control-Allow-Origin", "b"); ("Content-Type", "a")]
    refreshEndpoints 503 200.
Proof.
  apply modifyOutput_headers_order.
  - apply perm_swap.
  - apply (bool_decide_unpack _). vm_compute. exact I.
Defined.

(** X12. Every [refresh] request gets the CORS headers: the allowed origin
    mirrors the request's [Origin] (empty when there is none) and
    credentials are allowed, whether or not a route matched and whatever is
    finally emitted. *)
Theorem refresh_cors_headers (path : string)
    (visit : list (string * gmap string string)) (w : World) (r : Request) :
  mget (Header r) ServiceName = "refresh" ->
  headers (errorHandler path visit w r) !! "Access-Control-Allow-Origin"
    = Some (mget (Header r) "Origin") /\
  headers (errorHandler path visit w r) !! "Access-Control-Allow-Credentials"
    = Some "true".
Proof.
  intros Hs. rewrite !headers_errorHandler_other by discriminate.
  unfold resolveOutput. apply String.eqb_eq in Hs. rewrite Hs.
  unfold modifyOutput, setHeaders, refreshHeaders. simpl. split.
  - rewrite lookup_insert_ne by discriminate. apply lookup_insert_eq.
  - apply lookup_insert_eq.
Qed.

Lemma refresh_cors_headers_witness :
  headers (errorHandler "/www" refreshEndpoints (mkWorld envNone goMime)
    (mkRequest {[ "X-Service-Name" := "refresh";
                  "Origin" := "https://app.example" ]}))
    !! "Access-Control-Allow-Origin" = Some "https://app.example" /\
  headers (errorHandler "/www" refreshEndpoints (mkWorld envNone goMime)
    (mkRequest {[ "X-Service-Name" := "refresh";
                  "Origin" := "https://app.example" ]}))
    !! "Access-Control-Allow-Credentials" = Some "true".
Proof.
  exact (refresh_cors_headers "/www" refreshEndpoints (mkWorld envNone goMime)
    (mkRequest {[ "X-Service-Name" := "refresh";
                  "Origin" := "https://app.example" ]}) eq_refl).
Defined.

(** X13. With DEBUG unset, a request of another service gets Content-Type
    and no other header from the handler, no CORS header and no echo; on
    the not-found path the map holds the two headers of [http.NotFound]
    instead. *)
Theorem plain_headers_exact (path : string)
    (visit : list (string * gmap string string)) (w : World) (r : Request) :
  mget (Header r) ServiceName <> "refresh" ->
  Getenv w "DEBUG" = "" ->
  headers (errorHandler path visit w r) =
  match emitted (errorHandler path visit w r) with
  | NotFound =>
      {[ ContentType := "text/plain; charset=utf-8";
         "X-Content-Type-Options" := "nosniff" ]}
  | _ => {[ ContentType := classifiedFormat w r ]}
  end.
Proof.
  intros Hs Hd. apply String.eqb_neq in Hs.
  rewrite headers_errorHandler, resolveOutput_other by exact Hs. simpl.
  assert (Hc : classifiedHeaders w r = {[ ContentType := classifiedFormat w r ]}).
  { unfold classifiedHeaders, debugHeaders. rewrite Hd. simpl. apply insert_empty. }
  rewrite Hc.
  destruct (emitted (errorHandler path visit w r)); reflexivity.
Qed.

Lemma plain_headers_exact_witness :
  headers (errorHandler "/www" refreshEndpoints (mkWorld envBoth goMime)
    (mkRequest {[ "X-Format" := "application/json"; "Origin" := "https://x" ]}))
  = {[ "Content-Type" := "application/json" ]}.
Proof.
  assert (Hs : mget (Header (mkRequest {[ "X-Format" := "application/json";
                                          "Origin" := "https://x" ]}))
                 ServiceName <> "refresh") by discriminate.
  exact (plain_headers_exact "/www" refreshEndpoints (mkWorld envBoth goMime)
    (mkRequest {[ "X-Format" := "application/json"; "Origin" := "https://x" ]})
    Hs eq_refl).
Defined.

(** X14. With DEBUG set, the eight routing headers of the request other than
    Content-Type come back on the response with the values they had (empty
    when absent), for every request and whatever else the handler sets. *)
Theorem debug_echo (path : string)
    (visit : list (string * gmap string string)) (w : World) (r : Request)
    (k : string) :
  Getenv w "DEBUG" <> "" ->
  k ∈ [FormatHeader; CodeHeader; OriginalURI; Namespace; IngressName;
       ServiceName; ServicePort; RequestId] ->
  headers (errorHandler path visit w r) !! k = Some (mget (Header r) k).
Proof.
  intros Hd Hk. apply nonEmpty_true in Hd.
  repeat (apply elem_of_cons in Hk as [-> | Hk]);
    [..|now apply elem_of_nil in Hk];
    rewrite headers_errorHandler_other by discriminate;
    unfold resolveOutput, modifyOutput, classifiedHeaders, debugHeaders;
    rewrite Hd;
    destruct (String.eqb _ "refresh"); reflexivity.
Qed.

Lemma debug_echo_witness :
  headers (errorHandler "/www" refreshEndpoints
             (mkWorld {[ "DEBUG" := "1" ]} goMime)
             (mkRequest {[ "X-Code" := "503"; "X-Service-Name" := "refresh" ]}))
    !! "X-Code" = Some "503".
Proof.
  assert (Hd : Getenv (mkWorld {[ "DEBUG" := "1" ]} goMime) "DEBUG" <> "")
    by discriminate.
  assert (Hk : "X-Code" ∈ [FormatHeader; CodeHeader; OriginalURI; Namespace;
                           IngressName; ServiceName; ServicePort; RequestId]).
  { apply elem_of_cons. right. apply elem_of_cons. now left. }
  exact (debug_echo "/www" refreshEndpoints (mkWorld {[ "DEBUG" := "1" ]} goMime)
           (mkRequest {[ "X-Code" := "503"; "X-Service-Name" := "refresh" ]})
           "X-Code" Hd Hk).
Defined.

(** ** The class-level fallback name *)

Lemma formatBits_step (fuel : nat) (u : Z) (acc : string) :
  formatBits (S fuel) u acc =
  if u <? 10 then String (digitChar (u mod 10)) acc
  else formatBits fuel (u / 10) (String (digitChar (u mod 10)) acc).
Proof. reflexivity. Qed.

(** X15. For a three-digit status the fallback file is named after its
    hundreds digit: [<path>/<code / 100>xx<ext>]. *)
Theorem fallback_hundreds_digit (path : string) (code : Z) (ext : string) :
  100 <= code <= 999 ->
  fallbackName path code ext =
  Some (path +:+ "/" +:+ String (digitChar (code / 100)) "xx" +:+ ext).
Proof.
  intros H. unfold fallbackName, Itoa.
  destruct (Z.ltb_spec code 0) as [|_]; [lia|].
  change 20%nat with (S (S (S 17))). rewrite !formatBits_step.
  assert (H1 : code / 10 / 10 = code / 100) by (now rewrite Z.div_div by lia).
  assert (H2 : 1 <= code / 100 < 10).
  { split; [apply Z.div_le_lower_bound; lia | apply Z.div_lt_upper_bound; lia]. }
  assert (H3 : 10 <= code / 10) by (apply Z.div_le_lower_bound; lia).
  destruct (Z.ltb_spec code 10); [lia|].
  destruct (Z.ltb_spec (code / 10) 10); [lia|].
  destruct (Z.ltb_spec (code / 10 / 10) 10); [|lia].
  rewrite H1, (Z.mod_small (code / 100)) by lia. reflexivity.
Qed.

Lemma fallback_hundreds_digit_witness :
  fallbackName "/www" 418 ".json" = Some "/www/4xx.json".
Proof.
  assert (H : 100 <= 418 <= 999) by lia.
  exact (fallback_hundreds_digit "/www" 418 ".json" H).
Defined.

(** ** main *)

(** X16. With ERROR_FILES_PATH unset or empty when the process starts, the
    registered handler serves from [/www]: a request of another service
    whose [X-Code] is the decimal form of a three-digit code [n] and whose
    file [/www/<n><ext>] exists gets that file with status [n]. *)
Theorem main_default_root (start w : World)
    (visit : list (string * gmap string string)) (r : Request)
    (n : Z) (f : string) :
  environ start !! ErrFilesPathVar = None \/
  environ start !! ErrFilesPathVar = Some "" ->
  mget (Header r) ServiceName <> "refresh" ->
  100 <= n <= 999 ->
  mget (Header r) CodeHeader = Itoa n ->
  Open w ("/www/" +:+ Itoa n +:+ classifiedExt w r) = Some f ->
  emitted (mainHandler start visit w r) = Wrote n f.
Proof.
  intros Hv Hs Hn Hh Hf.
  assert (Hroot : errFilesPath start = "/www").
  { unfold errFilesPath, Getenv, mget. destruct Hv as [-> | ->]; reflexivity. }
  assert (Hcode : resolveCode r = n).
  { unfold resolveCode. rewrite Hh, Atoi_Itoa; [reflexivity|].
    unfold minInt, maxInt. lia. }
  unfold mainHandler. rewrite Hroot. apply String.eqb_neq in Hs.
  destruct (selection_other "/www" visit w r Hs) as (Hname & Hc & Hk).
  rewrite errorHandler_eq, Hc, Hname, Hk, Hcode.
  change ("/www" +:+ "/" +:+ Itoa n +:+ classifiedExt w r)
    with ("/www/" +:+ Itoa n +:+ classifiedExt w r).
  rewrite Hf. now rewrite writeResponse_valid.
Qed.

Lemma main_default_root_witness :
  emitted (mainHandler (mkWorld {[ "ERROR_FILES_PATH" := "" ]} goMime)
             refreshEndpoints (mkWorld envNone goMime)
             (mkRequest {[ "X-Code" := "503"; "X-Format" := "application/json" ]}))
  = Wrote 503 "{ 'message': 'unavailable' }".
Proof.
  assert (Hs : mget (Header (mkRequest {[ "X-Code" := "503";
                                          "X-Format" := "application/json" ]}))
                 ServiceName <> "refresh") by discriminate.
  assert (Hn : 100 <= 503 <= 999) by lia.
  exact (main_default_root (mkWorld {[ "ERROR_FILES_PATH" := "" ]} goMime)
           (mkWorld envNone goMime) refreshEndpoints
           (mkRequest {[ "X-Code" := "503"; "X-Format" := "application/json" ]})
           503 "{ 'message': 'unavailable' }"
           (or_intror eq_refl) Hs Hn eq_refl eq_refl).
Defined.

(** ** Metrics *)

(** X17. The handler answers "not found" only when there is no literal
    content and both the first file and the class-level fallback failed to
    open, and then it records no sample. *)
Theorem not_found_records_nothing (path : string)
    (visit : list (string * gmap string string)) (w : World) (r : Request) :
  emitted (errorHandler path visit w r) = NotFound ->
  samples (errorHandler path visit w r) = [] /\
  selContent path visit w r = None /\
  Open w (selFilename path visit w r) = None /\
  exists D rest, Itoa (resolveCode r) = String D rest /\
    Open w (path +:+ "/" +:+ String D "xx" +:+ classifiedExt w r) = None.
Proof.
  rewrite errorHandler_eq. simpl.
  destruct (selContent path visit w r);
    [rewrite emitted_writeResponse; destruct (validStatus _); discriminate|].
  destruct (Open w (selFilename path visit w r));
    [rewrite emitted_writeResponse; destruct (validStatus _); discriminate|].
  destruct (fallbackName_some path (resolveCode r) (classifiedExt w r))
    as (D & rest & HD & ->).
  destruct (Open w _) eqn:Hfb;
    [rewrite emitted_writeResponse; destruct (validStatus _); discriminate|].
  intros _. repeat split. eauto.
Qed.

Lemma not_found_records_nothing_witness :
  samples (errorHandler "/www" refreshEndpoints (mkWorld envNone goMime)
             (mkRequest {[ "X-Code" := "302"; "X-Format" := "application/json" ]}))
  = [].
Proof.
  apply (not_found_records_nothing "/www" refreshEndpoints (mkWorld envNone goMime)
           (mkRequest {[ "X-Code" := "302"; "X-Format" := "application/json" ]})).
  reflexivity.
Defined.

(** X18. When there is literal content or the first file opens, the
    handler records exactly one count increment and one duration
    observation, both labelled with the protocol version as "major.minor",
    provided the writer accepts [customCode]; when it refuses the code the
    handler ends there and records nothing. *)
Theorem first_choice_records_once (path : string)
    (visit : list (string * gmap string string)) (w : World) (r : Request) :
  is_Some (selContent path visit w r) \/
  is_Some (Open w (selFilename path visit w r)) ->
  samples (errorHandler path visit w r) =
  if validStatus (selCode path visit w r) then
    [ CountInc (Itoa (ProtoMajor r) +:+ "." +:+ Itoa (ProtoMinor r));
      DurationObserve (Itoa (ProtoMajor r) +:+ "." +:+ Itoa (ProtoMinor r))
        (elapsed w) ]
  else [].
Proof.
  intros H. rewrite samples_errorHandler.
  destruct (selContent path visit w r); [reflexivity|].
  destruct H as [[? H] | [? H]]; [discriminate|]. now rewrite H.
Qed.

Lemma first_choice_records_once_witness :
  samples (errorHandler "/www" refreshEndpoints (mkWorld envFresha goMime)
             {| Header := {[ "X-Service-Name" := "refresh";
                             "X-Original-URI" := "/version-checks/shedul" ]};
                ProtoMajor := 2; ProtoMinor := 0 |})
  = [CountInc "2.0"; DurationObserve "2.0" 1500].
Proof.
  assert (H : is_Some (selContent "/www" refreshEndpoints (mkWorld envFresha goMime)
                         {| Header := {[ "X-Service-Name" := "refresh";
                                         "X-Original-URI" := "/version-checks/shedul" ]};
                            ProtoMajor := 2; ProtoMinor := 0 |}))
    by (eexists; reflexivity).
  exact (first_choice_records_once "/www" refreshEndpoints
           (mkWorld envFresha goMime)
           {| Header := {[ "X-Service-Name" := "refresh";
                           "X-Original-URI" := "/version-checks/shedul" ]};
              ProtoMajor := 2; ProtoMinor := 0 |} (or_introl H)).
Defined.

(** ** Prefix and substring tests *)

(** [HasPrefix s pre] holds exactly when [s] is [pre] followed by
    something. *)
Lemma HasPrefix_spec (s pre : string) :
  HasPrefix s pre = true <-> exists rest, s = pre +:+ rest.
Proof.
  revert s. induction pre as [|a pre IH]; intros s; simpl.
  - split; [intros _; now exists s | reflexivity].
  - destruct s as [|b s].
    + split; [discriminate | intros [rest H]; discriminate H].
    + destruct (Ascii.eqb_spec a b) as [<- | Hne].
      * rewrite IH. split; intros [rest H]; exists rest.
        -- now rewrite append_cons, H.
        -- rewrite append_cons in H. now injection H.
      * split; [discriminate|]. intros [rest H].
        rewrite append_cons in H. injection H as H1 _. congruence.
Qed.

Lemma Contains_unfold (s sub : string) :
  Contains s sub =
  HasPrefix s sub || match s with
                     | EmptyString => false
                     | String _ s' => Contains s' sub
                     end.
Proof. destruct s; reflexivity. Qed.

Lemma Contains_intro (pre sub post : string) :
  Contains (pre +:+ sub +:+ post) sub = true.
Proof.
  induction pre as [|c pre IH].
  - rewrite Contains_unfold. apply orb_true_iff. left.
    apply HasPrefix_spec. now exists post.
  - rewrite append_cons, Contains_unfold, IH. apply orb_true_r.
Qed.

(** X20. [Contains s sub] holds exactly when [sub] occurs somewhere in [s]:
    the match key of a route may sit anywhere in X-Original-URI, the query
    string included. *)
Theorem Contains_spec (s sub : string) :
  Contains s sub = true <-> exists pre post, s = pre +:+ sub +:+ post.
Proof.
  split.
  - induction s as [|c s IH]; rewrite Contains_unfold; intros H;
      apply orb_true_iff in H as [H | H].
    + apply HasPrefix_spec in H as [rest ->]. now exists "", rest.
    + discriminate.
    + apply HasPrefix_spec in H as [rest ->]. now exists "", rest.
    + destruct (IH H) as (pre & post & ->). now exists (String c pre), post.
  - intros (pre & post & ->). apply Contains_intro.
Qed.

Lemma Contains_spec_witness :
  Contains "/v1/version-checks/shedul?x=1" "/version-checks/shedul" = true.
Proof.
  apply (Contains_spec "/v1/version-checks/shedul?x=1" "/version-checks/shedul").
  exists "/v1", "?x=1". reflexivity.
Defined.

(** X19. Normalization leaves an extension unchanged exactly when it starts
    with "."; any other extension, the empty one included, gets one "." in
    front. *)
Theorem normalizeExt_fixed (ext : string) :
  (normalizeExt ext = ext <-> exists rest, ext = "." +:+ rest) /\
  (normalizeExt ext = ext \/ normalizeExt ext = "." +:+ ext).
Proof.
  unfold normalizeExt. destruct (HasPrefix ext ".") eqn:E; simpl.
  - split; [|now left]. split; [intros _; now apply HasPrefix_spec | reflexivity].
  - split; [|now right]. split.
    + intros H. change ("." +:+ ext) with (String "." ext) in H.
      apply (f_equal String.length) in H. simpl in H. lia.
    + intros Hex. apply HasPrefix_spec in Hex. congruence.
Qed.

(** X21. For a [refresh] request with both maintenance variables empty, a
    URI that has the fresha key anywhere in it selects status 200 and a
    route file, in either visiting order: the fresha file, unless the URI
    holds the shedul key as well and that route is visited later. *)
Theorem uri_substring_selects_route (path : string)
    (visit : list (string * gmap string string)) (w : World) (r : Request)
    (pre post : string) :
  Permutation visit refreshEndpoints ->
  mget (Header r) ServiceName = "refresh" ->
  Getenv w "REFRESH_FRESHA_MAINTENANCE" = "" ->
  Getenv w "REFRESH_SHEDUL_MAINTENANCE" = "" ->
  mget (Header r) OriginalURI = pre +:+ "/version-checks/fresha" +:+ post ->
  selCode path visit w r = 200 /\
  selContent path visit w r = None /\
  (selFilename path visit w r = path +:+ "/refresh-fresha.json" \/
   Contains (mget (Header r) OriginalURI) "/version-checks/shedul" = true /\
   selFilename path visit w r = path +:+ "/refresh-shedul.json").
Proof.
  intros Hperm Hs E1 E2 Huri.
  assert (U1 : Contains (mget (Header r) OriginalURI) "/version-checks/fresha" = true).
  { rewrite Huri. apply Contains_intro. }
  unfold selCode, selContent, selFilename. rewrite selection_refresh by exact Hs.
  destruct (Contains (mget (Header r) OriginalURI) "/version-checks/shedul") eqn:U2;
    destruct (visit_cases visit Hperm) as [-> | ->];
    [unfold refreshEndpoints
    |change (rev refreshEndpoints) with [shedulRoute; freshaRoute]
    |unfold refreshEndpoints
    |change (rev refreshEndpoints) with [shedulRoute; freshaRoute]];
    cbn [fold_left];
    repeat (rewrite ?rangeEndpoint_fresha, ?rangeEndpoint_shedul,
              ?E1, ?E2, ?U1, ?U2; cbn [nonEmpty String.eqb negb]);
    simpl; auto.
Qed.

Lemma uri_substring_selects_route_witness :
  selCode "/www" refreshEndpoints (mkWorld envNone goMime)
    (mkRequest {[ "X-Service-Name" := "refresh";
                  "X-Original-URI" := "/search?next=/version-checks/fresha" ]})
    = 200 /\
  selContent "/www" refreshEndpoints (mkWorld envNone goMime)
    (mkRequest {[ "X-Service-Name" := "refresh";
                  "X-Original-URI" := "/search?next=/version-checks/fresha" ]})
    = None /\
  (selFilename "/www" refreshEndpoints (mkWorld envNone goMime)
     (mkRequest {[ "X-Service-Name" := "refresh";
                   "X-Original-URI" := "/search?next=/version-checks/fresha" ]})
     = "/www" +:+ "/refresh-fresha.json" \/
   Contains (mget (Header (mkRequest {[ "X-Service-Name" := "refresh";
                   "X-Original-URI" := "/search?next=/version-checks/fresha" ]}))
               OriginalURI) "/version-checks/shedul" = true /\
   selFilename "/www" refreshEndpoints (mkWorld envNone goMime)
     (mkRequest {[ "X-Service-Name" := "refresh";
                   "X-Original-URI" := "/search?next=/version-checks/fresha" ]})
     = "/www" +:+ "/refresh-shedul.json").
Proof.
  exact (uri_substring_selects_route "/www" refreshEndpoints
           (mkWorld envNone goMime)
           (mkRequest {[ "X-Service-Name" := "refresh";
                         "X-Original-URI" := "/search?next=/version-checks/fresha" ]})
           "/search?next=" "" (Permutation_refl _) eq_refl eq_refl eq_refl eq_refl).
Defined.

(** ** File names of different codes *)

Lemma length_append (s t : string) :
  String.length (s +:+ t) = (String.length s + String.length t)%nat.
Proof.
  induction s as [|c s IH]; [reflexivity|].
  rewrite append_cons. simpl. now rewrite IH.
Qed.

Lemma append_inv_tail (s1 s2 t : string) : s1 +:+ t = s2 +:+ t -> s1 = s2.
Proof.
  revert s2. induction s1 as [|a s1 IH]; intros [|b s2] H.
  - reflexivity.
  - apply (f_equal String.length) in H. rewrite !length_append in H.
    simpl in H. lia.
  - apply (f_equal String.length) in H. rewrite !length_append in H.
    simpl in H. lia.
  - rewrite !append_cons in H. injection H as -> H. f_equal. now apply IH.
Qed.

(** X22. Two different codes never share a file name: with the same root
    and extension, [<path>/<n><ext>] and [<path>/<m><ext>] differ whenever
    [n] and [m] do. *)
Theorem primary_names_distinct (path ext : string) (n m : Z) :
  minInt <= n <= maxInt -> minInt <= m <= maxInt ->
  n <> m ->
  path +:+ "/" +:+ Itoa n +:+ ext <> path +:+ "/" +:+ Itoa m +:+ ext.
Proof.
  intros Hn Hm Hne H. apply Hne.
  apply String.app_inj in H. apply (String.app_inj "/") in H.
  apply append_inv_tail in H.
  pose proof (Atoi_Itoa n Hn) as E. rewrite H, (Atoi_Itoa m Hm) in E.
  now injection E.
Qed.

Lemma primary_names_distinct_witness :
  "/www" +:+ "/" +:+ Itoa 50 +:+ "3.html" <> "/www" +:+ "/" +:+ Itoa 503 +:+ "3.html".
Proof.
  assert (H1 : minInt <= 50 <= maxInt) by (unfold minInt, maxInt; lia).
  assert (H2 : minInt <= 503 <= maxInt) by (unfold minInt, maxInt; lia).
  assert (H3 : 50 <> 503) by lia.
  exact (primary_names_distinct "/www" "3.html" 50 503 H1 H2 H3).
Defined.
